(** * wrangler [pages functions build]: build-mode resolution and packaging

    A shallow embedding of
      - [packages/wrangler/src/pages/bundle.ts] ([Options], [Handler]) and
      - [packages/wrangler/src/api/pages/create-worker-bundle-contents.ts]
        ([createUploadWorkerBundleContents], [createWorkerBundleFormData]),
    with the properties of the specification stated over it.

    Conventions.  A JavaScript string is a Rocq [string], one character per
    code unit (code units below 256).  [string | undefined] is
    [option string]; JavaScript truthiness of such a value is [truthy].
    The Handler is an [async] function whose awaits are sequential, so it is
    embedded in a state-and-exception monad [M] over a [World] holding the
    file system, the number of random draws taken so far and the emitted
    console and metrics events.  What the Handler imports from Node or from
    modules of the repository that are not part of the two files above is
    collected in two interfaces, [Runtime] and [Collaborators]. *)

From Stdlib Require Import ZArith NArith List Ascii String Strings.Byte Lia.
From stdpp Require Import base decidable option list gmap strings pretty sorting.

Local Open Scope string_scope.
Local Open Scope Z_scope.

Set Warnings "-register-all".

(** ** JavaScript values produced by [JSON.parse] *)

(** A number is kept as the exact decimal value [mantissa * 10 ^ exponent] of
    its literal. An object keeps its members in source order. *)
Inductive JSON : Type :=
| JNull
| JBool (b : bool)
| JNumber (mantissa exponent : Z)
| JString (s : string)
| JArray (elements : list JSON)
| JObject (members : list (string * JSON)).

(** [ToBoolean] applied to the double nearest to [m * 10 ^ e]: the literal
    rounds to zero exactly when its magnitude is at most [2 ^ -1075], half of
    the smallest subnormal. *)
Definition number_nonzero (m e : Z) : bool :=
  if Z.eqb m 0 then false
  else if Z.leb 0 e then true
  else Z.ltb (10 ^ (- e)) (Z.abs m * 2 ^ 1075).

Definition ToBoolean (v : JSON) : bool :=
  match v with
  | JNull => false
  | JBool b => b
  | JNumber m e => number_nonzero m e
  | JString s => negb (bool_decide (s = ""))
  | JArray _ | JObject _ => true
  end.

(** Truthiness of a [string | undefined]. *)
Definition truthy (s : option string) : bool :=
  match s with
  | Some s => negb (bool_decide (s = ""))
  | None => false
  end.

(** [v?.key] for a key that no prototype defines ([None] is [undefined]):
    only an object can own it, and of duplicated members the last one wins. *)
Definition optional_member (v : JSON) (key : string) : option JSON :=
  match v with
  | JObject members => snd <$> last (filter (λ kv, kv.1 = key) members)
  | _ => None
  end.

(** [x || y] *)
Definition or_else (x : option JSON) (y : JSON) : JSON :=
  match x with
  | Some v => if ToBoolean v then v else y
  | None => y
  end.

(** *** [Object.keys] *)

Definition is_digit (c : ascii) : bool :=
  (48 <=? nat_of_ascii c)%nat && (nat_of_ascii c <=? 57)%nat.

Fixpoint digits_value (acc : N) (s : string) : option N :=
  match s with
  | EmptyString => Some acc
  | String c s' =>
      if is_digit c
      then digits_value (acc * 10 + (N_of_ascii c - 48))%N s'
      else None
  end.

(** An array index is a canonical numeral below [2 ^ 32 - 1]. *)
Definition array_index (k : string) : option N :=
  match k with
  | EmptyString => None
  | String c rest =>
      if bool_decide (c = "0"%char) && negb (bool_decide (rest = "")) then None
      else
        match digits_value 0 k with
        | Some n => if (n <? 2 ^ 32 - 1)%N then Some n else None
        | None => None
        end
  end.

(** Keep the first occurrence of every key. *)
Definition first_occurrences (ks : list string) : list string :=
  reverse (remove_dups (reverse ks)).

Definition index_le (x y : N * string) : Prop := (x.1 ≤ y.1)%N.

#[local] Instance index_le_dec : RelDecision index_le.
Proof. intros x y. unfold index_le. apply _. Defined.

(** Own property keys in the order of [OrdinaryOwnPropertyKeys]: array
    indices ascending, then the other keys in creation order. *)
Definition own_keys (ks : list string) : list string :=
  let ks := first_occurrences ks in
  (merge_sort index_le (omap (λ k, (λ n, (n, k)) <$> array_index k) ks)).*2
  ++ filter (λ k, array_index k = None) ks.

Definition indices (n : nat) : list string :=
  (λ i : nat, pretty (N.of_nat i)) <$> seq 0 n.

(** [Object.keys v]; [None] is the [TypeError] raised for [null]. *)
Definition Object_keys (v : JSON) : option (list string) :=
  match v with
  | JNull => None
  | JBool _ | JNumber _ _ => Some []
  | JString s => Some (indices (String.length s))
  | JArray elements => Some (indices (length elements))
  | JObject members => Some (own_keys members.*1)
  end.

(** ** Errors, the world and the monad *)

Inductive Exn : Type :=
| FatalError (message : string) (code : option Z)
| FunctionsNoRoutesError (message : string)
| SyntaxError (message : string)
| TypeError (message : string)
| SystemError (code path : string)
| Error (message : string).

Inductive Node : Type :=
| File (content : list byte)
| Dir.

(** What [logger.log], [console.warn] and [metrics.sendMetricsEvent] are
    called with. *)
Inductive Event : Type :=
| LoggerLog (message : string)
| ConsoleWarn (message : string)
| MetricsEvent (name : string).

(** The file system is keyed by the path as it is handed to the [node:fs]
    call. *)
Record World : Type := mkWorld {
  fs : gmap string Node;
  draws : nat;
  events : list Event;
}.

Inductive Outcome (A : Type) : Type :=
| Ok (a : A)
| Throw (e : Exn).
Arguments Ok {A} a.
Arguments Throw {A} e.

Definition M (A : Type) : Type := World → Outcome A * World.

Definition ret {A} (a : A) : M A := λ w, (Ok a, w).

Definition throw {A} (e : Exn) : M A := λ w, (Throw e, w).

Definition bind {A B} (m : M A) (k : A → M B) : M B :=
  λ w, match m w with
       | (Ok a, w') => k a w'
       | (Throw e, w') => (Throw e, w')
       end.

(** [try { m } catch (e) { handler e }] *)
Definition try_catch {A} (m : M A) (handler : Exn → M A) : M A :=
  λ w, match m w with
       | (Ok a, w') => (Ok a, w')
       | (Throw e, w') => handler e w'
       end.

Definition when (b : bool) (m : M unit) : M unit := if b then m else ret tt.

Declare Scope js_scope.
Delimit Scope js_scope with js.
Notation "x <- m ;; k" := (bind m (λ x, k))
  (at level 100, m at next level, right associativity) : js_scope.
Notation "m ;; k" := (bind m (λ _, k))
  (at level 100, right associativity) : js_scope.
Local Open Scope js_scope.

Definition emit (e : Event) : M unit :=
  λ w, (Ok tt, mkWorld (fs w) (draws w) (events w ++ [e])).

(** *** [node:fs] *)

Definition existsSync (path : string) (w : World) : bool :=
  bool_decide (is_Some (fs w !! path)).

Definition readFile (path : string) : M (list byte) :=
  λ w, match fs w !! path with
       | Some (File content) => (Ok content, w)
       | Some Dir => (Throw (SystemError "EISDIR" path), w)
       | None => (Throw (SystemError "ENOENT" path), w)
       end.

(** [writeFileSync(path, data)]: the file is created or truncated, then
    [data] becomes its whole content. *)
Definition writeFileSync (path : string) (data : list byte) : M unit :=
  λ w, match fs w !! path with
       | Some Dir => (Throw (SystemError "EISDIR" path), w)
       | _ => (Ok tt, mkWorld (<[path := File data]> (fs w)) (draws w) (events w))
       end.

(** ** Data of the bundler and of the upload API *)

(** Modelled from the spec: the type declarations [BundleResult] (in
    [../bundle]) and [CfModule], [CfModuleType], [CfWorkerInit] (in
    [../worker]), which the two source files import but do not contain.
    The fields are those the source reads and writes. *)
Inductive BundleType : Type := esm | commonjs.

Inductive CfModuleType : Type :=
| script (t : BundleType)
| text
| binary
| wasm.

Inductive CfModuleContent : Type :=
| TextContent (s : string)
| BufferContent (b : list byte).

Module CfModule.
Record t : Type := mk {
  name : string;
  content : CfModuleContent;
  type : CfModuleType;
}.
End CfModule.

Module BundleResult.
Record t : Type := mk {
  resolvedEntryPointPath : string;
  modules : list CfModule.t;
  bundleType : option BundleType;
}.
End BundleResult.

Module CfWorkerBindings.
Record t : Type := mk {
  vars : option JSON;
  kv_namespaces : option JSON;
  wasm_modules : option JSON;
  text_blobs : option JSON;
  data_blobs : option JSON;
  durable_objects : option JSON;
  queues : option JSON;
  r2_buckets : option JSON;
  d1_databases : option JSON;
  services : option JSON;
  analytics_engine_datasets : option JSON;
  dispatch_namespaces : option JSON;
  logfwdr : option JSON;
  unsafe : option JSON;
}.
End CfWorkerBindings.

Module CfWorkerInit.
Record t : Type := mk {
  name : string;
  main : CfModule.t;
  modules : list CfModule.t;
  bindings : CfWorkerBindings.t;
  migrations : option JSON;
  compatibility_date : option string;
  compatibility_flags : option (list string);
  usage_model : option string;
  keepVars : option bool;
  logpush : option bool;
}.
End CfWorkerInit.

(** ** The command line ([Options]) *)

(** What the user typed: every option may be left out. *)
Module Argv.
Record t : Type := mk {
  directory : option string;
  functions_directory : option string;
  outfile : option string;
  output_config_path : option string;
  output_routes_path : option string;
  minify : option bool;
  sourcemap : option bool;
  fallback_service : option string;
  watch : option bool;
  plugin : option bool;
  build_output_directory : option string;
  node_compat : option bool;
  bindings : option string;
  experimental_worker_bundle : option bool;
}.
End Argv.

Module PagesBuildArgs.
Record t : Type := mk {
  directory : option string;
  functionsDirectory : string;
  outfile : string;
  outputConfigPath : option string;
  outputRoutesPath : option string;
  minify : bool;
  sourcemap : bool;
  fallbackService : string;
  watch : bool;
  plugin : bool;
  buildOutputDirectory : option string;
  nodeCompat : bool;
  bindings : option string;
  experimentalWorkerBundle : bool;
}.
End PagesBuildArgs.

(** The [default:] entries of [Options]. *)
Definition Options (argv : Argv.t) : PagesBuildArgs.t :=
  {| PagesBuildArgs.directory := Argv.directory argv;
     PagesBuildArgs.functionsDirectory :=
       default "functions" (Argv.functions_directory argv);
     PagesBuildArgs.outfile := default "_worker.js" (Argv.outfile argv);
     PagesBuildArgs.outputConfigPath := Argv.output_config_path argv;
     PagesBuildArgs.outputRoutesPath := Argv.output_routes_path argv;
     PagesBuildArgs.minify := default false (Argv.minify argv);
     PagesBuildArgs.sourcemap := default false (Argv.sourcemap argv);
     PagesBuildArgs.fallbackService :=
       default "ASSETS" (Argv.fallback_service argv);
     PagesBuildArgs.watch := default false (Argv.watch argv);
     PagesBuildArgs.plugin := default false (Argv.plugin argv);
     PagesBuildArgs.buildOutputDirectory := Argv.build_output_directory argv;
     PagesBuildArgs.nodeCompat := default false (Argv.node_compat argv);
     PagesBuildArgs.bindings := Argv.bindings argv;
     PagesBuildArgs.experimentalWorkerBundle :=
       default false (Argv.experimental_worker_bundle argv) |}.

(** ** Options handed to the two builders *)

Module RawWorkerOptions.
Record t : Type := mk {
  workerScriptPath : string;
  outfile : string;
  directory : string;
  local : bool;
  sourcemap : bool;
  watch : bool;
  betaD1Shims : option (list string);
  experimentalWorkerBundle : bool;
}.
End RawWorkerOptions.

Module FunctionsOptions.
Record t : Type := mk {
  outfile : string;
  outputConfigPath : option string;
  functionsDirectory : string;
  minify : bool;
  sourcemap : bool;
  fallbackService : string;
  watch : bool;
  plugin : bool;
  buildOutputDirectory : string;
  nodeCompat : bool;
  routesOutputPath : option string;
  local : bool;
  d1Databases : option (list string);
  experimentalWorkerBundle : bool;
}.
End FunctionsOptions.

(** ** Interfaces to what the two files import *)

(** Node and ECMAScript built-ins. [Math_random n] is the text that the
    [n]-th drawn number prints as inside a template literal. *)
Class Runtime : Type := {
  resolvePath : string → string → string;
  join : string → string → string;
  dirname : string → string;
  basename : string → string;
  tmpdir : string;
  Math_random : nat → string;
  JSON_parse : string → option JSON;
  utf8_decode : list byte → string;
}.

(** Modules of the repository, and of undici, that are imported by the two
    files: [./constants], [./utils], [./errors], [./functions/buildWorker],
    [./buildFunctions], [../../create-worker-upload-form] and the
    serialisation [new Response(form).blob()]. *)
Class Collaborators : Type := {
  isInPagesCI : bool;
  pagesBetaWarning : string;
  EXIT_CODE_FUNCTIONS_NO_ROUTES_ERROR : Z;
  getFunctionsNoRoutesWarning : string → string;
  buildRawWorker : RawWorkerOptions.t → M BundleResult.t;
  buildFunctions : FunctionsOptions.t → M BundleResult.t;
  FormData : Type;
  createWorkerUploadForm : CfWorkerInit.t → FormData;
  Response_blob : FormData → M (list byte);
}.

(** ** [create-worker-bundle-contents.ts] *)

Section Packager.
Context `{RT : Runtime} `{CO : Collaborators}.

(** [readFileSync(path, { encoding: "utf-8" })] *)
Definition readFileSync (path : string) : M string :=
  content <- readFile path ;;
  ret (utf8_decode content).

(** The [worker] object of [createWorkerBundleFormData]. The parameter is
    [None] when the caller passes [undefined] under its [as BundleResult]
    cast; reading a property of it is a [TypeError]. *)
Definition workerInit (workerBundle : option BundleResult.t)
  : M CfWorkerInit.t :=
  match workerBundle with
  | None =>
      throw (TypeError
        "Cannot read properties of undefined (reading 'resolvedEntryPointPath')")
  | Some workerBundle =>
      let name := basename (BundleResult.resolvedEntryPointPath workerBundle) in
      content <- readFileSync (BundleResult.resolvedEntryPointPath workerBundle) ;;
      let mainModule :=
        {| CfModule.name := name;
           CfModule.content := TextContent content;
           CfModule.type :=
             script (default esm (BundleResult.bundleType workerBundle)) |} in
      ret {| CfWorkerInit.name := CfModule.name mainModule;
             CfWorkerInit.main := mainModule;
             CfWorkerInit.modules := BundleResult.modules workerBundle;
             CfWorkerInit.bindings :=
               {| CfWorkerBindings.vars := None;
                  CfWorkerBindings.kv_namespaces := None;
                  CfWorkerBindings.wasm_modules := None;
                  CfWorkerBindings.text_blobs := None;
                  CfWorkerBindings.data_blobs := None;
                  CfWorkerBindings.durable_objects := None;
                  CfWorkerBindings.queues := None;
                  CfWorkerBindings.r2_buckets := None;
                  CfWorkerBindings.d1_databases := None;
                  CfWorkerBindings.services := None;
                  CfWorkerBindings.analytics_engine_datasets := None;
                  CfWorkerBindings.dispatch_namespaces := None;
                  CfWorkerBindings.logfwdr := None;
                  CfWorkerBindings.unsafe := None |};
             CfWorkerInit.migrations := None;
             CfWorkerInit.compatibility_date := None;
             CfWorkerInit.compatibility_flags := None;
             CfWorkerInit.usage_model := None;
             CfWorkerInit.keepVars := None;
             CfWorkerInit.logpush := None |}
  end.

Definition createWorkerBundleFormData (workerBundle : option BundleResult.t)
  : M FormData :=
  worker <- workerInit workerBundle ;;
  ret (createWorkerUploadForm worker).

Definition createUploadWorkerBundleContents
  (workerBundle : option BundleResult.t) : M (list byte) :=
  workerBundleFormData <- createWorkerBundleFormData workerBundle ;;
  Response_blob workerBundleFormData.
End Packager.

(** ** [bundle.ts]: the Handler *)

(** The branch of lines 165 and 188 that a run takes. *)
Inductive BuildMode : Type :=
| RawWorker (workerScriptPath : string)
| Functions (functionsDirectory : string)
| Unresolved.

Section Handler.
Context `{RT : Runtime} `{CO : Collaborators}.

Definition missingInputsMessage (functionsDirectory : string) : string :=
  "Could not find a static assets directory or the Functions directory.
No [--directory] of static files was provided so we looked for /"
  +:+ functionsDirectory +:+ " but couldn't find anything.
	➤ If you are trying to build _worker.js, please make sure you provide the directory containing your static files [--directory].
	➤ If you are trying to build Pages Functions, please make sure [--functions-directory] points to the location of your Functions files.".

(** The condition of lines 135-139. *)
Definition missingInputs (a : PagesBuildArgs.t) (w : World) : bool :=
  negb (truthy (PagesBuildArgs.directory a))
  && bool_decide (PagesBuildArgs.functionsDirectory a = "functions")
  && negb (existsSync (PagesBuildArgs.functionsDirectory a) w).

Definition checkInputs (a : PagesBuildArgs.t) : M unit :=
  λ w, if missingInputs a w
       then throw (FatalError
              (missingInputsMessage (PagesBuildArgs.functionsDirectory a))
              None) w
       else ret tt w.

Definition JSON_parse_or_throw (source : string) : M JSON :=
  match JSON_parse source with
  | Some v => ret v
  | None => throw (SyntaxError "Unexpected token in JSON")
  end.

Definition Object_keys_or_throw (v : JSON) : M (list string) :=
  match Object_keys v with
  | Some ks => ret ks
  | None => throw (TypeError "Cannot convert undefined or null to object")
  end.

(** Lines 146-154: the value of [d1Databases]. *)
Definition decodeBindings (bindings : option string)
  : M (option (list string)) :=
  match bindings with
  | Some blob =>
      if truthy (Some blob) then
        try_catch
          (decodedBindings <- JSON_parse_or_throw blob ;;
           keys <- Object_keys_or_throw
             (or_else (optional_member decodedBindings "d1_databases")
                      (JObject [])) ;;
           ret (Some keys))
          (λ _, throw (FatalError
                         "Could not parse a valid set of 'bindings'."
                         (Some 1)))
      else ret None
  | None => ret None
  end.

(** Line 156: [directory && resolvePath(directory, "_worker.js")]. *)
Definition workerScriptPath (directory : option string) : option string :=
  if truthy directory
  then (λ d, resolvePath d "_worker.js") <$> directory
  else directory.

(** Line 158. *)
Definition effectiveOutfile (a : PagesBuildArgs.t) : string :=
  if PagesBuildArgs.experimentalWorkerBundle a
  then "_worker.bundle"
  else PagesBuildArgs.outfile a.

(** The conditions of lines 165 and 188. *)
Definition buildMode (a : PagesBuildArgs.t) : BuildMode :=
  let otherwise :=
    if truthy (Some (PagesBuildArgs.functionsDirectory a))
    then Functions (PagesBuildArgs.functionsDirectory a)
    else Unresolved in
  match workerScriptPath (PagesBuildArgs.directory a) with
  | Some path => if truthy (Some path) then RawWorker path else otherwise
  | None => otherwise
  end.

(** [Math.random()] printed inside a template literal. *)
Definition Math_random_text : M string :=
  λ w, (Ok (Math_random (draws w)),
        mkWorld (fs w) (S (draws w)) (events w)).

(** The [catch] block of lines 217-226. *)
Definition translateBuilderError (functionsDirectory : string) (e : Exn)
  : M BundleResult.t :=
  match e with
  | FunctionsNoRoutesError _ =>
      throw (FatalError (getFunctionsNoRoutesWarning functionsDirectory)
                        (Some EXIT_CODE_FUNCTIONS_NO_ROUTES_ERROR))
  | _ => throw e
  end.

(** The argument of [buildRawWorker] (lines 172-187); [onEnd] is a
    function that does nothing. *)
Definition rawWorkerOptions (a : PagesBuildArgs.t) (workerScriptPath : string)
  (d1Databases : option (list string)) : M RawWorkerOptions.t :=
  r <- Math_random_text ;;
  let workerOutfile := join tmpdir ("./bundledWorker-" +:+ r +:+ ".mjs") in
  ret {| RawWorkerOptions.workerScriptPath := workerScriptPath;
         RawWorkerOptions.outfile := workerOutfile;
         RawWorkerOptions.directory :=
           default "." (PagesBuildArgs.directory a);
         RawWorkerOptions.local := false;
         RawWorkerOptions.sourcemap := true;
         RawWorkerOptions.watch := false;
         RawWorkerOptions.betaD1Shims := d1Databases;
         RawWorkerOptions.experimentalWorkerBundle :=
           PagesBuildArgs.experimentalWorkerBundle a |}.

(** The argument of [buildFunctions] (lines 195-216). *)
Definition functionsOptions (a : PagesBuildArgs.t) (functionsDirectory : string)
  (d1Databases : option (list string)) (outfile : string)
  : M FunctionsOptions.t :=
  functionsOutfile <-
    (if PagesBuildArgs.experimentalWorkerBundle a
     then r <- Math_random_text ;;
          ret (join tmpdir ("./functionsWorker-" +:+ r +:+ ".js"))
     else ret outfile) ;;
  let buildOutputDirectory :=
    default (dirname outfile) (PagesBuildArgs.buildOutputDirectory a) in
  ret {| FunctionsOptions.outfile := functionsOutfile;
         FunctionsOptions.outputConfigPath :=
           PagesBuildArgs.outputConfigPath a;
         FunctionsOptions.functionsDirectory := functionsDirectory;
         FunctionsOptions.minify := PagesBuildArgs.minify a;
         FunctionsOptions.sourcemap := PagesBuildArgs.sourcemap a;
         FunctionsOptions.fallbackService :=
           PagesBuildArgs.fallbackService a;
         FunctionsOptions.watch := PagesBuildArgs.watch a;
         FunctionsOptions.plugin := PagesBuildArgs.plugin a;
         FunctionsOptions.buildOutputDirectory := buildOutputDirectory;
         FunctionsOptions.nodeCompat := PagesBuildArgs.nodeCompat a;
         FunctionsOptions.routesOutputPath :=
           PagesBuildArgs.outputRoutesPath a;
         FunctionsOptions.local := false;
         FunctionsOptions.d1Databases := d1Databases;
         FunctionsOptions.experimentalWorkerBundle :=
           PagesBuildArgs.experimentalWorkerBundle a |}.

(** Lines 165-227: the value of [bundle]. *)
Definition build (a : PagesBuildArgs.t) (d1Databases : option (list string))
  (outfile : string) : M (option BundleResult.t) :=
  match buildMode a with
  | RawWorker workerScriptPath =>
      options <- rawWorkerOptions a workerScriptPath d1Databases ;;
      bundle <- buildRawWorker options ;;
      ret (Some bundle)
  | Functions functionsDirectory =>
      options <- functionsOptions a functionsDirectory d1Databases outfile ;;
      bundle <- try_catch (buildFunctions options)
                          (translateBuilderError functionsDirectory) ;;
      ret (Some bundle)
  | Unresolved => ret None
  end.

(** Lines 229-238. *)
Definition writeWorkerBundle (experimentalWorkerBundle : bool)
  (bundle : option BundleResult.t) (outfile : string) : M unit :=
  if experimentalWorkerBundle then
    workerBundleContents <- createUploadWorkerBundleContents bundle ;;
    writeFileSync outfile workerBundleContents
  else ret tt.

Definition nodeCompatWarning : string :=
  "Enabling node.js compatibility mode for builtins and globals. This is experimental and has serious tradeoffs. Please see https://github.com/ionic-team/rollup-plugin-node-polyfills/ for more details.".

(** Lines 121-130. *)
Definition announce (a : PagesBuildArgs.t) : M unit :=
  when (negb isInPagesCI) (emit (LoggerLog pagesBetaWarning)) ;;
  when (PagesBuildArgs.nodeCompat a) (emit (ConsoleWarn nodeCompatWarning)).

(** Lines 121-227: everything up to the value of [bundle]. *)
Definition resolveAndBuild (a : PagesBuildArgs.t)
  : M (option BundleResult.t) :=
  announce a ;;
  checkInputs a ;;
  d1Databases <- decodeBindings (PagesBuildArgs.bindings a) ;;
  build a d1Databases (effectiveOutfile a).

Definition Handler (a : PagesBuildArgs.t) : M unit :=
  bundle <- resolveAndBuild a ;;
  writeWorkerBundle (PagesBuildArgs.experimentalWorkerBundle a) bundle
                    (effectiveOutfile a) ;;
  emit (MetricsEvent "build pages functions").
End Handler.

(** ** A POSIX runtime

    [node:path] in its POSIX flavour, and a reader for JSON texts. They
    instantiate [Runtime] wherever a property is evaluated on concrete
    inputs. *)

Module Posix.

Definition is_slash (c : ascii) : bool := Ascii.eqb c "/".

Fixpoint segments (s : list ascii) : list (list ascii) :=
  match s with
  | [] => [[]]
  | c :: s' =>
      if is_slash c then [] :: segments s'
      else match segments s' with
           | seg :: rest => (c :: seg) :: rest
           | [] => [[c]]
           end
  end.

(** One step of [normalizeString]; the stack holds the kept segments, last
    one first. *)
Definition push_segment (allowAboveRoot : bool) (stack : list string)
  (seg : string) : list string :=
  if bool_decide (seg = "") || bool_decide (seg = ".") then stack
  else if bool_decide (seg = "..") then
    match stack with
    | top :: rest =>
        if bool_decide (top = "..")
        then (if allowAboveRoot then ".." :: stack else stack)
        else rest
    | [] => if allowAboveRoot then [".."] else []
    end
  else seg :: stack.

Fixpoint join_with_slash (segs : list string) : string :=
  match segs with
  | [] => ""
  | [seg] => seg
  | seg :: rest => seg +:+ "/" +:+ join_with_slash rest
  end.

Definition normalizeString (path : string) (allowAboveRoot : bool) : string :=
  join_with_slash
    (rev (fold_left (push_segment allowAboveRoot)
                    (string_of_list_ascii <$> segments (list_ascii_of_string path))
                    [])).

Definition isAbsolute (path : string) : bool :=
  match path with
  | String c _ => is_slash c
  | EmptyString => false
  end.

Definition endsWithSlash (path : string) : bool :=
  match rev (list_ascii_of_string path) with
  | c :: _ => is_slash c
  | [] => false
  end.

Definition normalize (path : string) : string :=
  if bool_decide (path = "") then "."
  else
    let p := normalizeString path (negb (isAbsolute path)) in
    if bool_decide (p = "") then
      if isAbsolute path then "/"
      else if endsWithSlash path then "./" else "."
    else
      let p := if endsWithSlash path then p +:+ "/" else p in
      if isAbsolute path then "/" +:+ p else p.

Definition join (a b : string) : string :=
  let joined :=
    if bool_decide (a = "") then b
    else if bool_decide (b = "") then a
    else a +:+ "/" +:+ b in
  if bool_decide (joined = "") then "." else normalize joined.

(** [resolve(a, b)] in a process whose working directory is [cwd]. *)
Definition resolve (cwd a b : string) : string :=
  let step (acc : string * bool) (path : string) :=
    if acc.2 || bool_decide (path = "") then acc
    else (path +:+ "/" +:+ acc.1, isAbsolute path) in
  let '(resolvedPath, resolvedAbsolute) :=
    fold_left step [b; a; cwd] ("", false) in
  let p := normalizeString resolvedPath (negb resolvedAbsolute) in
  if resolvedAbsolute then "/" +:+ p
  else if bool_decide (p = "") then "." else p.

Fixpoint drop_slashes (s : list ascii) : list ascii :=
  match s with
  | c :: s' => if is_slash c then drop_slashes s' else s
  | [] => []
  end.

Fixpoint take_segment (s : list ascii) : list ascii :=
  match s with
  | c :: s' => if is_slash c then [] else c :: take_segment s'
  | [] => []
  end.

Fixpoint drop_segment (s : list ascii) : list ascii :=
  match s with
  | c :: s' => if is_slash c then s else drop_segment s'
  | [] => []
  end.

(** [basename(path)]: trailing slashes are skipped, then what follows the
    last remaining slash is kept. *)
Definition basename (path : string) : string :=
  string_of_list_ascii
    (rev (take_segment (drop_slashes (rev (list_ascii_of_string path))))).

Definition dirname (path : string) : string :=
  match list_ascii_of_string path with
  | [] => "."
  | first :: tail =>
      match drop_segment (drop_slashes (rev tail)) with
      | _ :: before =>
          if is_slash first && bool_decide (before = []) then "//"
          else string_of_list_ascii (first :: rev before)
      | [] => if is_slash first then "/" else "."
      end
  end.

(** *** Reading JSON *)

Definition is_ws (c : ascii) : bool :=
  Ascii.eqb c " " || Ascii.eqb c "009" || Ascii.eqb c "010" || Ascii.eqb c "013".

Fixpoint skip_ws (s : list ascii) : list ascii :=
  match s with
  | c :: s' => if is_ws c then skip_ws s' else s
  | [] => []
  end.

Definition hex_value (c : ascii) : option N :=
  let n := N_of_ascii c in
  if (48 <=? n)%N && (n <=? 57)%N then Some (n - 48)%N
  else if (65 <=? n)%N && (n <=? 70)%N then Some (n - 55)%N
  else if (97 <=? n)%N && (n <=? 102)%N then Some (n - 87)%N
  else None.

Definition simple_escape (c : ascii) : option ascii :=
  if Ascii.eqb c "034" then Some "034"%char
  else if Ascii.eqb c "\" then Some "\"%char
  else if Ascii.eqb c "/" then Some "/"%char
  else if Ascii.eqb c "b" then Some "008"%char
  else if Ascii.eqb c "f" then Some "012"%char
  else if Ascii.eqb c "n" then Some "010"%char
  else if Ascii.eqb c "r" then Some "013"%char
  else if Ascii.eqb c "t" then Some "009"%char
  else None.

(** The text after an opening quote, up to the closing one. A [\u] escape
    is read when the code unit it names fits a character of [string]. *)
Fixpoint string_body (s acc : list ascii) : option (string * list ascii) :=
  match s with
  | [] => None
  | c :: r =>
      if Ascii.eqb c "034" then Some (string_of_list_ascii (rev acc), r)
      else if Ascii.eqb c "\" then
        match r with
        | e :: r1 =>
            if Ascii.eqb e "u" then
              match r1 with
              | h1 :: h2 :: h3 :: h4 :: r2 =>
                  match hex_value h1, hex_value h2, hex_value h3, hex_value h4 with
                  | Some a, Some b, Some c', Some d =>
                      let n := (((a * 16 + b) * 16 + c') * 16 + d)%N in
                      if (n <? 256)%N then string_body r2 (ascii_of_N n :: acc)
                      else None
                  | _, _, _, _ => None
                  end
              | _ => None
              end
            else match simple_escape e with
                 | Some x => string_body r1 (x :: acc)
                 | None => None
                 end
        | [] => None
        end
      else if (N_of_ascii c <? 32)%N then None
      else string_body r (c :: acc)
  end.

Fixpoint span_digits (s : list ascii) : list ascii * list ascii :=
  match s with
  | c :: s' =>
      if is_digit c
      then let '(ds, r) := span_digits s' in (c :: ds, r)
      else ([], s)
  | [] => ([], [])
  end.

Definition digits_Z (ds : list ascii) : Z :=
  fold_left (λ acc c, acc * 10 + (Z.of_N (N_of_ascii c) - 48)) ds 0.

(** [frac?]: a dot is followed by at least one digit. *)
Definition fraction (r : list ascii) : option (list ascii * list ascii) :=
  match r with
  | c :: r' =>
      if Ascii.eqb c "." then
        match span_digits r' with
        | ([], _) => None
        | (ds, r'') => Some (ds, r'')
        end
      else Some ([], r)
  | [] => Some ([], r)
  end.

(** [exp?] *)
Definition exponent (r : list ascii) : option (Z * list ascii) :=
  match r with
  | c :: r' =>
      if Ascii.eqb c "e" || Ascii.eqb c "E" then
        let '(minus, r1) :=
          match r' with
          | sg :: r'' =>
              if Ascii.eqb sg "-" then (true, r'')
              else if Ascii.eqb sg "+" then (false, r'')
              else (false, r')
          | [] => (false, r')
          end in
        match span_digits r1 with
        | ([], _) => None
        | (ds, r2) => Some (if minus then - digits_Z ds else digits_Z ds, r2)
        end
      else Some (0, r)
  | [] => Some (0, r)
  end.

(** [-? int frac? exp?], read as [mantissa * 10 ^ exponent]. *)
Definition number (s : list ascii) : option (Z * Z * list ascii) :=
  let '(negative, s) :=
    match s with
    | c :: r => if Ascii.eqb c "-" then (true, r) else (false, s)
    | [] => (false, s)
    end in
  match span_digits s with
  | ([], _) => None
  | (d :: more, r) =>
      if Ascii.eqb d "0" && negb (bool_decide (more = [])) then None
      else
        '(frac, r) ← fraction r;
        '(e, r) ← exponent r;
        let mantissa := digits_Z (d :: more ++ frac) in
        Some (if negative then - mantissa else mantissa,
              e - Z.of_nat (length frac), r)
  end.

Fixpoint strip_prefix (p s : list ascii) : option (list ascii) :=
  match p, s with
  | [], _ => Some s
  | a :: p', b :: s' => if Ascii.eqb a b then strip_prefix p' s' else None
  | _ :: _, [] => None
  end.

Definition literal (name : string) (v : JSON) (s : list ascii)
  : option (JSON * list ascii) :=
  (λ r, (v, r)) <$> strip_prefix (list_ascii_of_string name) s.

Fixpoint value (fuel : nat) (s : list ascii) : option (JSON * list ascii) :=
  match fuel with
  | O => None
  | S fuel =>
      match skip_ws s with
      | [] => None
      | c :: r =>
          if Ascii.eqb c "{" then
            match skip_ws r with
            | c' :: r' =>
                if Ascii.eqb c' "}" then Some (JObject [], r')
                else members fuel (c' :: r') []
            | [] => None
            end
          else if Ascii.eqb c "[" then
            match skip_ws r with
            | c' :: r' =>
                if Ascii.eqb c' "]" then Some (JArray [], r')
                else elements fuel (c' :: r') []
            | [] => None
            end
          else if Ascii.eqb c "034" then
            (λ '(str, r'), (JString str, r')) <$> string_body r []
          else if Ascii.eqb c "t" then literal "true" (JBool true) (c :: r)
          else if Ascii.eqb c "f" then literal "false" (JBool false) (c :: r)
          else if Ascii.eqb c "n" then literal "null" JNull (c :: r)
          else (λ '(m, e, r'), (JNumber m e, r')) <$> number (c :: r)
      end
  end
with members (fuel : nat) (s : list ascii) (acc : list (string * JSON))
  : option (JSON * list ascii) :=
  match fuel with
  | O => None
  | S fuel =>
      match s with
      | c :: r =>
          if Ascii.eqb c "034" then
            match string_body r [] with
            | Some (key, r1) =>
                match skip_ws r1 with
                | colon :: r2 =>
                    if Ascii.eqb colon ":" then
                      match value fuel r2 with
                      | Some (v, r3) =>
                          match skip_ws r3 with
                          | sep :: r4 =>
                              if Ascii.eqb sep "," then
                                members fuel (skip_ws r4) ((key, v) :: acc)
                              else if Ascii.eqb sep "}" then
                                Some (JObject (rev ((key, v) :: acc)), r4)
                              else None
                          | [] => None
                          end
                      | None => None
                      end
                    else None
                | [] => None
                end
            | None => None
            end
          else None
      | [] => None
      end
  end
with elements (fuel : nat) (s : list ascii) (acc : list JSON)
  : option (JSON * list ascii) :=
  match fuel with
  | O => None
  | S fuel =>
      match value fuel s with
      | Some (v, r) =>
          match skip_ws r with
          | sep :: r' =>
              if Ascii.eqb sep "," then elements fuel r' (v :: acc)
              else if Ascii.eqb sep "]" then Some (JArray (rev (v :: acc)), r')
              else None
          | [] => None
          end
      | None => None
      end
  end.

(** [JSON.parse]: one value, surrounded by white space only. Every call
    of [value], [members] and [elements] consumes a character before the
    next one, so the length of the text bounds the depth. *)
Definition JSON_parse (source : string) : option JSON :=
  let s := list_ascii_of_string source in
  match value (2 + length s) s with
  | Some (v, r) => if bool_decide (skip_ws r = []) then Some v else None
  | None => None
  end.

End Posix.

(** ** Sample collaborators

    A runtime rooted at [/project], a raw-worker builder that copies the
    entry script to its output file, a Functions builder that finds a route
    exactly when the functions directory holds an [index.js], and a
    form encoder that lists the parts one after the other; text is decoded
    byte by byte, which is UTF-8 on ASCII files. They are the concrete
    inputs on which the properties below are evaluated. *)

Module Sample.

Definition runtime : Runtime :=
  {| resolvePath := Posix.resolve "/project";
     join := Posix.join;
     dirname := Posix.dirname;
     basename := Posix.basename;
     tmpdir := "/tmp";
     Math_random := λ n, "0." +:+ pretty (N.of_nat (n + 42));
     JSON_parse := Posix.JSON_parse;
     utf8_decode := string_of_list_byte |}.

Definition rawWorker (o : RawWorkerOptions.t) : M BundleResult.t :=
  source <- readFile (RawWorkerOptions.workerScriptPath o) ;;
  writeFileSync (RawWorkerOptions.outfile o) source ;;
  ret {| BundleResult.resolvedEntryPointPath := RawWorkerOptions.outfile o;
         BundleResult.modules := [];
         BundleResult.bundleType := Some esm |}.

Definition functions (o : FunctionsOptions.t) : M BundleResult.t :=
  try_catch
    (source <- readFile (FunctionsOptions.functionsDirectory o +:+ "/index.js") ;;
     writeFileSync (FunctionsOptions.outfile o) source ;;
     ret {| BundleResult.resolvedEntryPointPath := FunctionsOptions.outfile o;
            BundleResult.modules := [];
            BundleResult.bundleType := Some esm |})
    (λ _, throw (FunctionsNoRoutesError "no routes")).

Definition content_bytes (c : CfModuleContent) : list byte :=
  match c with
  | TextContent s => list_byte_of_string s
  | BufferContent b => b
  end.

Definition part (m : CfModule.t) : list byte :=
  list_byte_of_string (CfModule.name m +:+ ":") ++ content_bytes (CfModule.content m)
  ++ list_byte_of_string ";".

Definition form (worker : CfWorkerInit.t) : list (list byte) :=
  list_byte_of_string ("main=" +:+ CfWorkerInit.name worker +:+ ";")
  :: part (CfWorkerInit.main worker)
  :: (part <$> CfWorkerInit.modules worker).

Definition collaborators : Collaborators :=
  {| isInPagesCI := false;
     pagesBetaWarning := "Pages is in beta";
     EXIT_CODE_FUNCTIONS_NO_ROUTES_ERROR := 156;
     getFunctionsNoRoutesWarning := λ d, "No routes found when building Functions directory: " +:+ d;
     buildRawWorker := rawWorker;
     buildFunctions := functions;
     FormData := list (list byte);
     createWorkerUploadForm := form;
     Response_blob := λ fd, ret (concat fd) |}.

(** The same collaborators with an encoder that opens the body with a
    boundary drawn from [Math.random] at each call. *)
Definition blob_drawing_boundary (fd : list (list byte)) : M (list byte) :=
  r <- Math_random_text (RT := runtime) ;;
  ret (list_byte_of_string ("----formdata-" +:+ r +:+ ";") ++ concat fd)%list.

Definition collaborators_drawing_boundary : Collaborators :=
  {| isInPagesCI := false;
     pagesBetaWarning := "Pages is in beta";
     EXIT_CODE_FUNCTIONS_NO_ROUTES_ERROR := 156;
     getFunctionsNoRoutesWarning := λ d, "No routes found when building Functions directory: " +:+ d;
     buildRawWorker := rawWorker;
     buildFunctions := functions;
     FormData := list (list byte);
     createWorkerUploadForm := form;
     Response_blob := blob_drawing_boundary |}.

(** Rocq writes a quotation mark inside a string in a way of its own; the
    JSON texts below are written with apostrophes instead. *)
Fixpoint quoted (s : string) : string :=
  match s with
  | EmptyString => EmptyString
  | String c r => String (if Ascii.eqb c "'" then "034"%char else c) (quoted r)
  end.

Definition world (files : list (string * Node)) : World :=
  mkWorld (list_to_map files) 0 [].

Definition args (directory : option string) (outfile bindings : option string)
  (experimentalWorkerBundle : bool) : PagesBuildArgs.t :=
  Options {| Argv.directory := directory;
             Argv.functions_directory := None;
             Argv.outfile := outfile;
             Argv.output_config_path := None;
             Argv.output_routes_path := None;
             Argv.minify := None;
             Argv.sourcemap := None;
             Argv.fallback_service := None;
             Argv.watch := None;
             Argv.plugin := None;
             Argv.build_output_directory := None;
             Argv.node_compat := None;
             Argv.bindings := bindings;
             Argv.experimental_worker_bundle := Some experimentalWorkerBundle |}.

Definition run (a : PagesBuildArgs.t) : M unit :=
  Handler (RT := runtime) (CO := collaborators) a.

(** A bundle as a builder returns it. *)
Definition builtBundle : BundleResult.t :=
  {| BundleResult.resolvedEntryPointPath := "/tmp/out.mjs";
     BundleResult.modules := [];
     BundleResult.bundleType := Some esm |}.

(** The world after the beta notice of line 123. *)
Definition announced (files : list (string * Node)) : World :=
  mkWorld (list_to_map files) 0 [LoggerLog "Pages is in beta"].

(** What [buildFunctions] receives when no option is given. *)
Definition defaultFunctionsOptions : FunctionsOptions.t :=
  {| FunctionsOptions.outfile := "_worker.js";
     FunctionsOptions.outputConfigPath := None;
     FunctionsOptions.functionsDirectory := "functions";
     FunctionsOptions.minify := false;
     FunctionsOptions.sourcemap := false;
     FunctionsOptions.fallbackService := "ASSETS";
     FunctionsOptions.watch := false;
     FunctionsOptions.plugin := false;
     FunctionsOptions.buildOutputDirectory := ".";
     FunctionsOptions.nodeCompat := false;
     FunctionsOptions.routesOutputPath := None;
     FunctionsOptions.local := false;
     FunctionsOptions.d1Databases := None;
     FunctionsOptions.experimentalWorkerBundle := false |}.

End Sample.

(** ** Variants of the arguments *)

(** The same arguments with another [--outfile]. *)
Definition with_outfile (outfile : string) (a : PagesBuildArgs.t)
  : PagesBuildArgs.t :=
  {| PagesBuildArgs.directory := PagesBuildArgs.directory a;
     PagesBuildArgs.functionsDirectory := PagesBuildArgs.functionsDirectory a;
     PagesBuildArgs.outfile := outfile;
     PagesBuildArgs.outputConfigPath := PagesBuildArgs.outputConfigPath a;
     PagesBuildArgs.outputRoutesPath := PagesBuildArgs.outputRoutesPath a;
     PagesBuildArgs.minify := PagesBuildArgs.minify a;
     PagesBuildArgs.sourcemap := PagesBuildArgs.sourcemap a;
     PagesBuildArgs.fallbackService := PagesBuildArgs.fallbackService a;
     PagesBuildArgs.watch := PagesBuildArgs.watch a;
     PagesBuildArgs.plugin := PagesBuildArgs.plugin a;
     PagesBuildArgs.buildOutputDirectory := PagesBuildArgs.buildOutputDirectory a;
     PagesBuildArgs.nodeCompat := PagesBuildArgs.nodeCompat a;
     PagesBuildArgs.bindings := PagesBuildArgs.bindings a;
     PagesBuildArgs.experimentalWorkerBundle :=
       PagesBuildArgs.experimentalWorkerBundle a |}.

(** The part of the Handler that follows a build in the Functions branch:
    the [catch] block, then lines 229-240. *)
Definition afterFunctionsBuild `{RT : Runtime} `{CO : Collaborators}
  (a : PagesBuildArgs.t) (functionsDirectory : string)
  (options : FunctionsOptions.t) : M unit :=
  bundle <- try_catch (buildFunctions options)
                      (translateBuilderError functionsDirectory) ;;
  writeWorkerBundle (PagesBuildArgs.experimentalWorkerBundle a) (Some bundle)
                    (effectiveOutfile a) ;;
  emit (MetricsEvent "build pages functions").

(** ** The deployments commands

    The values computed by [deployments] and [viewDeployment] before they
    are logged. *)

Definition LF : string := String "010" EmptyString.

Definition sourceStr (source : string) : string :=
  if bool_decide (source = "api") then "📡 API"
  else if bool_decide (source = "dash") then "🖥️ Dashboard"
  else if bool_decide (source = "wrangler") then "🤠 Wrangler"
  else if bool_decide (source = "terraform") then "🏗️ Terraform"
  else "Other".

(** An item of [DeploymentListRes]. *)
Module DeploymentMetadata.
Record t : Type := mk {
  author_id : string;
  author_email : string;
  source : string;
  created_on : string;
  modified_on : string;
}.
End DeploymentMetadata.

Module Deployment.
Record t : Type := mk {
  id : string;
  number : string;
  metadata : DeploymentMetadata.t;
}.
End Deployment.

(** The template literal of lines 77-80. *)
Definition versionMessage (versions : Deployment.t) : string :=
  LF +:+ "Deployment ID: " +:+ Deployment.id versions
  +:+ LF +:+ "Created on: "
  +:+ DeploymentMetadata.created_on (Deployment.metadata versions)
  +:+ LF +:+ "Author: "
  +:+ DeploymentMetadata.author_email (Deployment.metadata versions)
  +:+ LF +:+ "Source: "
  +:+ sourceStr (DeploymentMetadata.source (Deployment.metadata versions))
  +:+ LF.

(** Lines 75-83: the elements of [versionMessages] when it is spread into
    [logger.log]. With no deployment, [versionMessages.length - 1] is [-1]:
    the assignment then makes a property of that name, which is no element
    of the array. *)
Definition versionMessages (deploys : list Deployment.t) : list string :=
  let versionMessages := versionMessage <$> deploys in
  match last versionMessages with
  | Some message =>
      <[(length versionMessages - 1)%nat := message +:+ "🟩 Active"]>
        versionMessages
  | None => versionMessages
  end.

(** [typeof value === "object" && value !== null] *)
Definition is_object (v : JSON) : bool :=
  match v with
  | JArray _ | JObject _ => true
  | _ => false
  end.

(** The own enumerable properties that [for (const key in v)] visits, with
    their values, in the order of the visit: for an object its keys as
    [Object.keys] lists them, for an array or a string the indices, and
    nothing for [null], a number or a boolean. *)
Definition own_entries (v : JSON) : list (string * JSON) :=
  match v with
  | JObject members =>
      omap (λ k, (λ x, (k, x)) <$> optional_member v k) (own_keys members.*1)
  | JArray elements =>
      imap (λ i x, (pretty (N.of_nat i), x)) elements
  | JString s =>
      imap (λ i c, (pretty (N.of_nat i), JString (String c EmptyString)))
           (list_ascii_of_string s)
  | JNull | JBool _ | JNumber _ _ => []
  end.

(** The own properties that one turn of the outer loop of lines 154-170
    gives to [flatObj]. [flatObj] is made by the literal [{}], so while its
    prototype is [Object.prototype] the assignment
    [flatObj["__proto__"] = value] of line 167 runs the [__proto__] setter
    that it inherits and defines no own property: in that branch [value] is
    [null], for which the setter takes the prototype away, or a string, a
    number or a boolean, for which it does nothing. [__proto__] is the only
    accessor of [Object.prototype], the top-level keys are distinct, and a
    key of line 162 has a dot in it, so every other assignment defines or
    replaces an own property. *)
Definition flattenEntry (entry : string * JSON) : list (string * JSON) :=
  let '(deployDetailsKey, value) := entry in
  if is_object value
  then (λ '(subKey, sub), (deployDetailsKey +:+ "." +:+ subKey, sub))
         <$> own_entries value
  else if bool_decide (deployDetailsKey = "__proto__") then []
  else [(deployDetailsKey, value)].

(** Lines 153-170: [flatObj] after the loop, as the object whose members are
    the own properties in the order they were assigned (a later assignment
    to the same key replaces the value and keeps the place, as for any
    member list). *)
Definition flatObj (deploymentDetails : JSON) : JSON :=
  JObject (own_entries deploymentDetails ≫= flattenEntry).

(** A key without a dot in it. *)
Definition dot_free (key : string) : Prop :=
  Forall (λ c, c ≠ "."%char) (list_ascii_of_string key).

(** ** More sample inputs *)

Module Demo.

Definition args (directory : option string) (functionsDirectory : string)
  (outfile : string) (bindings : option string)
  (experimentalWorkerBundle : bool) : PagesBuildArgs.t :=
  Options {| Argv.directory := directory;
             Argv.functions_directory := Some functionsDirectory;
             Argv.outfile := Some outfile;
             Argv.output_config_path := None;
             Argv.output_routes_path := None;
             Argv.minify := None;
             Argv.sourcemap := None;
             Argv.fallback_service := None;
             Argv.watch := None;
             Argv.plugin := None;
             Argv.build_output_directory := None;
             Argv.node_compat := None;
             Argv.bindings := bindings;
             Argv.experimental_worker_bundle := Some experimentalWorkerBundle |}.

Definition deployment (id created_on author_email source : string)
  : Deployment.t :=
  {| Deployment.id := id;
     Deployment.number := "1";
     Deployment.metadata :=
       {| DeploymentMetadata.author_id := "a1";
          DeploymentMetadata.author_email := author_email;
          DeploymentMetadata.source := source;
          DeploymentMetadata.created_on := created_on;
          DeploymentMetadata.modified_on := created_on |} |}.

(** A deployment as the API describes it: two plain fields, and two fields
    that hold an object. *)
Definition details : JSON :=
  JObject
    [("id", JString "d-1");
     ("number", JNumber 3 0);
     ("metadata", JObject [("author_email", JString "a@b.c");
                           ("source", JString "api")]);
     ("resources", JObject [("script", JString "worker");
                            ("bindings", JArray [])])].

(** The same with nothing under [resources]. *)
Definition bare : JSON :=
  JObject [("id", JString "d-1"); ("resources", JObject [])].

End Demo.

(** * Properties *)

(** ** [Object.keys] lists every own key once *)

Lemma elem_of_first_occurrences (ks : list string) (k : string) :
  k ∈ first_occurrences ks ↔ k ∈ ks.
Proof.
  unfold first_occurrences.
  by rewrite elem_of_reverse, elem_of_remove_dups, elem_of_reverse.
Qed.

Lemma NoDup_first_occurrences (ks : list string) : NoDup (first_occurrences ks).
Proof.
  unfold first_occurrences. rewrite reverse_Permutation.
  apply NoDup_remove_dups.
Qed.

Lemma indexed_keys (ks : list string) :
  (omap (λ k, (λ n, (n, k)) <$> array_index k) ks).*2
  = filter (λ k, is_Some (array_index k)) ks.
Proof.
  induction ks as [|k ks IH]; [done|].
  cbn [omap list_omap]. rewrite filter_cons.
  destruct (array_index k) as [n|] eqn:E; cbn.
  - rewrite decide_True by eauto. by rewrite IH.
  - rewrite decide_False by (intros [? ?]; congruence). done.
Qed.

Lemma own_keys_perm (ks : list string) :
  own_keys ks ≡ₚ
    filter (λ k, is_Some (array_index k)) (first_occurrences ks)
    ++ filter (λ k, array_index k = None) (first_occurrences ks).
Proof.
  unfold own_keys. cbn zeta. apply Permutation_app; [|done].
  rewrite <- indexed_keys. apply fmap_Permutation, merge_sort_Permutation.
Qed.

Lemma elem_of_own_keys (ks : list string) (k : string) :
  k ∈ own_keys ks ↔ k ∈ ks.
Proof.
  rewrite own_keys_perm, elem_of_app, !list_elem_of_filter,
    elem_of_first_occurrences.
  split.
  - by intros [[_ ?]|[_ ?]].
  - intros H. destruct (array_index k) eqn:E; [left|right]; split; eauto.
Qed.

Lemma NoDup_own_keys (ks : list string) : NoDup (own_keys ks).
Proof.
  rewrite own_keys_perm. apply NoDup_app. split_and!.
  - apply NoDup_filter, NoDup_first_occurrences.
  - intros k [[n Hn] _]%list_elem_of_filter [Hk _]%list_elem_of_filter.
    congruence.
  - apply NoDup_filter, NoDup_first_occurrences.
Qed.

(** After [|| {}] the argument of [Object.keys] is never [null]. *)
Lemma Object_keys_or_else (x : option JSON) :
  is_Some (Object_keys (or_else x (JObject []))).
Proof.
  destruct x as [[| b | m e | s | l | ms]|]; cbn; try destruct b;
    try destruct (number_nonzero m e); try case_bool_decide; cbn; eauto.
Qed.

(** ** Truthiness and the monad *)

Lemma truthy_nonempty (s : string) : s ≠ "" → truthy (Some s) = true.
Proof. intros H. unfold truthy. by rewrite bool_decide_eq_false_2. Qed.

Lemma truthy_Some (x : option string) :
  truthy x = true ↔ ∃ s, x = Some s ∧ s ≠ "".
Proof.
  destruct x as [s|]; cbn.
  - rewrite negb_true_iff, bool_decide_eq_false. split.
    + intros H. by exists s.
    + by intros (s' & [= <-] & H).
  - split; [done|]. by intros (s & H & _).
Qed.

Lemma bind_Ok {A B} (m : M A) (k : A → M B) (w w' : World) (a : A) :
  m w = (Ok a, w') → bind m k w = k a w'.
Proof. unfold bind. by intros ->. Qed.

Lemma bind_Throw {A B} (m : M A) (k : A → M B) (w w' : World) (e : Exn) :
  m w = (Throw e, w') → bind m k w = (Throw e, w').
Proof. unfold bind. by intros ->. Qed.

Lemma missingInputs_fs (a : PagesBuildArgs.t) (w w' : World) :
  fs w = fs w' → missingInputs a w = missingInputs a w'.
Proof. unfold missingInputs, existsSync. by intros ->. Qed.

Section Announce.
Context `{CO : Collaborators}.

(** The two messages of lines 121-130 touch neither the file system nor
    the random draws. *)
Lemma announce_Ok (a : PagesBuildArgs.t) (w : World) :
  ∃ w', announce a w = (Ok tt, w') ∧ fs w' = fs w ∧ draws w' = draws w.
Proof.
  unfold announce, when, bind, emit, ret.
  destruct (negb isInPagesCI), (PagesBuildArgs.nodeCompat a); cbn; eauto.
Qed.
End Announce.

(** ** Extraction of the database bindings *)

Section Bindings.
Context `{RT : Runtime}.

Lemma decodeBindings_parsed (blob : string) (v : JSON) (w : World) :
  blob ≠ "" → JSON_parse blob = Some v →
  ∃ ks, Object_keys (or_else (optional_member v "d1_databases") (JObject []))
          = Some ks
        ∧ decodeBindings (Some blob) w = (Ok (Some ks), w).
Proof.
  intros Hne Hv.
  destruct (Object_keys_or_else (optional_member v "d1_databases")) as [ks Hks].
  exists ks. split; [done|].
  unfold decodeBindings. rewrite truthy_nonempty by done.
  unfold try_catch, bind, JSON_parse_or_throw, Object_keys_or_throw.
  rewrite Hv. cbv beta iota delta [ret]. by rewrite Hks.
Qed.

Lemma decodeBindings_malformed (blob : string) (w : World) :
  blob ≠ "" → JSON_parse blob = None →
  decodeBindings (Some blob) w
  = (Throw (FatalError "Could not parse a valid set of 'bindings'." (Some 1)), w).
Proof.
  intros Hne Hv.
  unfold decodeBindings. rewrite truthy_nonempty by done.
  unfold try_catch, bind, JSON_parse_or_throw. by rewrite Hv.
Qed.

(** Decoding neither reads nor changes the world. *)
Lemma decodeBindings_world (bindings : option string) (w w' : World) :
  decodeBindings bindings w = (fst (decodeBindings bindings w'), w).
Proof.
  destruct bindings as [blob|]; [|done].
  unfold decodeBindings. destruct (truthy (Some blob)); [|done].
  unfold try_catch, bind, JSON_parse_or_throw, Object_keys_or_throw.
  destruct (JSON_parse blob) as [v|]; [|done]. cbn.
  by destruct (Object_keys _).
Qed.
End Bindings.

(** ** The Handler up to the build *)

Section Resolution.
Context `{RT : Runtime} `{CO : Collaborators}.

(** A failure before [bundle] has its value is the failure of the whole
    run: nothing is packaged, written or reported after it. *)
Lemma Handler_Throw (a : PagesBuildArgs.t) (w w' : World) (e : Exn) :
  resolveAndBuild a w = (Throw e, w') → Handler a w = (Throw e, w').
Proof. intros H. unfold Handler. by apply bind_Throw. Qed.

Lemma resolveAndBuild_missing (a : PagesBuildArgs.t) (w : World) :
  missingInputs a w = true →
  ∃ w', resolveAndBuild a w
        = (Throw (FatalError
             (missingInputsMessage (PagesBuildArgs.functionsDirectory a)) None),
           w')
        ∧ fs w' = fs w ∧ draws w' = draws w.
Proof.
  intros Hm. destruct (announce_Ok a w) as (w0 & Ha & Hfs & Hd).
  exists w0. split; [|done].
  unfold resolveAndBuild. rewrite (bind_Ok _ _ _ _ _ Ha).
  apply bind_Throw. unfold checkInputs.
  by rewrite (missingInputs_fs a w0 w Hfs), Hm.
Qed.

Lemma resolveAndBuild_checked (a : PagesBuildArgs.t) (w : World) :
  missingInputs a w = false →
  ∃ w0, fs w0 = fs w ∧ draws w0 = draws w
        ∧ announce a w = (Ok tt, w0)
        ∧ resolveAndBuild a w
          = (d1Databases <- decodeBindings (PagesBuildArgs.bindings a) ;;
             build a d1Databases (effectiveOutfile a)) w0.
Proof.
  intros Hm. destruct (announce_Ok a w) as (w0 & Ha & Hfs & Hd).
  exists w0. split_and!; try done.
  assert (checkInputs a w0 = (Ok tt, w0)) as Hc.
  { unfold checkInputs. by rewrite (missingInputs_fs a w0 w Hfs), Hm. }
  unfold resolveAndBuild.
  by rewrite (bind_Ok _ _ _ _ _ Ha), (bind_Ok _ _ _ _ _ Hc).
Qed.

Lemma resolveAndBuild_decoded (a : PagesBuildArgs.t) (w : World)
  (d1Databases : option (list string)) :
  missingInputs a w = false →
  fst (decodeBindings (PagesBuildArgs.bindings a) w) = Ok d1Databases →
  ∃ w0, fs w0 = fs w ∧ draws w0 = draws w
        ∧ announce a w = (Ok tt, w0)
        ∧ resolveAndBuild a w = build a d1Databases (effectiveOutfile a) w0.
Proof.
  intros Hm Hd. destruct (resolveAndBuild_checked a w Hm) as (w0 & ? & ? & ? & ->).
  exists w0. split_and!; try done.
  assert (decodeBindings (PagesBuildArgs.bindings a) w0 = (Ok d1Databases, w0))
    as Hd0 by (by rewrite (decodeBindings_world _ w0 w), Hd).
  by rewrite (bind_Ok _ _ _ _ _ Hd0).
Qed.
End Resolution.

(** C5: when no static-assets directory was requested, the functions
    directory has its default value [functions] and nothing exists at that
    path, the run fails with the [FatalError] of lines 140-143, which
    carries no exit code of its own; no other error is raised, and the file
    system and the random draws are as they were. *)
Theorem missing_inputs_fatal `{RT : Runtime} `{CO : Collaborators}
  (a : PagesBuildArgs.t) (w : World) :
  PagesBuildArgs.directory a = None →
  PagesBuildArgs.functionsDirectory a = "functions" →
  existsSync "functions" w = false →
  ∃ w', Handler a w
        = (Throw (FatalError (missingInputsMessage "functions") None), w')
        ∧ fs w' = fs w ∧ draws w' = draws w.
Proof.
  intros Hdir Hfd Hex.
  destruct (resolveAndBuild_missing a w) as (w' & H & ? & ?).
  { unfold missingInputs. by rewrite Hdir, Hfd, Hex. }
  exists w'. split; [|done]. apply Handler_Throw. by rewrite H, Hfd.
Qed.

Lemma missing_inputs_fatal_witness :
  PagesBuildArgs.directory (Sample.args None None None false) = None
  ∧ PagesBuildArgs.functionsDirectory (Sample.args None None None false)
    = "functions"
  ∧ existsSync "functions" (Sample.world [("public", Dir)]) = false
  ∧ ∃ w', Sample.run (Sample.args None None None false)
                     (Sample.world [("public", Dir)])
          = (Throw (FatalError (missingInputsMessage "functions") None), w')
          ∧ fs w' = fs (Sample.world [("public", Dir)])
          ∧ draws w' = draws (Sample.world [("public", Dir)]).
Proof.
  split_and!; [reflexivity | reflexivity | vm_compute; reflexivity |].
  apply (missing_inputs_fatal (RT := Sample.runtime) (CO := Sample.collaborators));
    [reflexivity | reflexivity | vm_compute; reflexivity].
Defined.

(** C6: an absent blob leaves [d1Databases] unset. A blob that parses
    yields the keys of its [d1_databases] member: the empty list when that
    member is absent, and, when it is an object, every member name of it
    exactly once. *)
Theorem d1Databases_extraction `{RT : Runtime} :
  JSON_parse "" = None →
  (∀ w, decodeBindings None w = (Ok None, w))
  ∧ (∀ blob v w,
       JSON_parse blob = Some v →
       ∃ ks,
         decodeBindings (Some blob) w = (Ok (Some ks), w)
         ∧ Object_keys (or_else (optional_member v "d1_databases") (JObject []))
           = Some ks
         ∧ (optional_member v "d1_databases" = None → ks = [])
         ∧ (∀ members,
              optional_member v "d1_databases" = Some (JObject members) →
              NoDup ks ∧ ∀ k, k ∈ ks ↔ k ∈ members.*1)).
Proof.
  intros Hempty. split; [done|]. intros blob v w Hv.
  assert (blob ≠ "") as Hne by (intros ->; congruence).
  destruct (decodeBindings_parsed blob v w Hne Hv) as (ks & Hks & Hd).
  exists ks. split_and!; try done.
  - intros Hnone. rewrite Hnone in Hks. cbn in Hks. congruence.
  - intros members Hm. rewrite Hm in Hks. cbn in Hks.
    injection Hks as <-. split; [apply NoDup_own_keys|].
    intros k. apply elem_of_own_keys.
Qed.

Lemma d1Databases_extraction_witness :
  Posix.JSON_parse "" = None
  ∧ Posix.JSON_parse (Sample.quoted "{'d1_databases':{'DB1':{},'DB2':{}}}")
    = Some (JObject [("d1_databases",
                      JObject [("DB1", JObject []); ("DB2", JObject [])])])
  ∧ decodeBindings (RT := Sample.runtime)
      (Some (Sample.quoted "{'d1_databases':{'DB1':{},'DB2':{}}}"))
      (Sample.world [])
    = (Ok (Some ["DB1"; "DB2"]), Sample.world [])
  ∧ decodeBindings (RT := Sample.runtime) (Some (Sample.quoted "{'kv':{}}"))
      (Sample.world [])
    = (Ok (Some []), Sample.world []).
Proof.
  pose proof (d1Databases_extraction (RT := Sample.runtime) eq_refl) as [_ H].
  split_and!; [reflexivity | vm_compute; reflexivity | |].
  - destruct (H (Sample.quoted "{'d1_databases':{'DB1':{},'DB2':{}}}") _
                (Sample.world []) ltac:(vm_compute; reflexivity))
      as (ks & -> & Hks & _).
    vm_compute in Hks. by injection Hks as <-.
  - destruct (H (Sample.quoted "{'kv':{}}") _
                (Sample.world []) ltac:(vm_compute; reflexivity))
      as (ks & -> & _ & Hnone & _).
    by rewrite Hnone.
Defined.

(** C7, as the code has it: a blob that is present and not empty, and that
    [JSON.parse] rejects, makes the extraction fail with the [FatalError] of
    line 152, whose exit code is 1, so no binding list is produced; a run
    that passed the check of lines 135-144 ends with that error before any
    builder is called. *)
Theorem malformed_bindings_fatal `{RT : Runtime} `{CO : Collaborators}
  (a : PagesBuildArgs.t) (blob : string) (w : World) :
  blob ≠ "" →
  JSON_parse blob = None →
  decodeBindings (Some blob) w
  = (Throw (FatalError "Could not parse a valid set of 'bindings'." (Some 1)), w)
  ∧ (PagesBuildArgs.bindings a = Some blob →
     missingInputs a w = false →
     ∃ w', Handler a w
           = (Throw (FatalError "Could not parse a valid set of 'bindings'."
                                (Some 1)), w')
           ∧ fs w' = fs w ∧ draws w' = draws w).
Proof.
  intros Hne Hv. split; [by apply decodeBindings_malformed|].
  intros Hb Hm.
  destruct (resolveAndBuild_checked a w Hm) as (w0 & ? & ? & _ & Hr).
  exists w0. split; [|done]. apply Handler_Throw. rewrite Hr, Hb.
  apply bind_Throw. by apply decodeBindings_malformed.
Qed.

Lemma malformed_bindings_fatal_witness :
  "{" ≠ ""
  ∧ Posix.JSON_parse "{" = None
  ∧ PagesBuildArgs.bindings (Sample.args None None (Some "{") false) = Some "{"
  ∧ missingInputs (Sample.args None None (Some "{") false)
                  (Sample.world [("functions", Dir)]) = false
  ∧ decodeBindings (RT := Sample.runtime) (Some "{") (Sample.world [("functions", Dir)])
    = (Throw (FatalError "Could not parse a valid set of 'bindings'." (Some 1)),
       Sample.world [("functions", Dir)])
  ∧ ∃ w', Sample.run (Sample.args None None (Some "{") false)
                     (Sample.world [("functions", Dir)])
          = (Throw (FatalError "Could not parse a valid set of 'bindings'."
                               (Some 1)), w')
          ∧ fs w' = fs (Sample.world [("functions", Dir)])
          ∧ draws w' = draws (Sample.world [("functions", Dir)]).
Proof.
  destruct (malformed_bindings_fatal (RT := Sample.runtime)
              (CO := Sample.collaborators)
              (Sample.args None None (Some "{") false) "{"
              (Sample.world [("functions", Dir)])) as [H1 H2];
    [discriminate | reflexivity |].
  split_and!; [discriminate | reflexivity | reflexivity
              | vm_compute; reflexivity | exact H1 |].
  apply H2; [reflexivity | vm_compute; reflexivity].
Defined.

(** C7 as stated fails on the empty blob: it is present and [JSON.parse]
    rejects it, yet line 147 takes it for absent, so no error is raised and
    the run goes on to build. *)
Lemma empty_bindings_not_rejected :
  Posix.JSON_parse "" = None
  ∧ decodeBindings (RT := Sample.runtime) (Some "") (Sample.world [])
    = (Ok None, Sample.world [])
  ∧ fst (Sample.run (Sample.args None None (Some "") false)
           (Sample.world [("functions", Dir);
                          ("functions/index.js", File [x31])]))
    = Ok tt.
Proof. split_and!; [reflexivity | reflexivity | vm_compute; reflexivity]. Qed.

(** ** Translation of builder errors *)

(** C4: in the Functions branch, when [buildFunctions] raises
    [FunctionsNoRoutesError] the run ends with a [FatalError] whose message is
    [getFunctionsNoRoutesWarning] of the functions directory and whose exit
    code is [EXIT_CODE_FUNCTIONS_NO_ROUTES_ERROR]; any other error of the
    builder is the error of the run, as it was raised. In both cases the
    world is left as the builder left it: the Handler writes nothing. *)
Theorem builder_errors `{RT : Runtime} `{CO : Collaborators}
  (a : PagesBuildArgs.t) (functionsDirectory : string)
  (d1Databases : option (list string))
  (w w0 w1 : World) (options : FunctionsOptions.t) :
  missingInputs a w = false →
  fst (decodeBindings (PagesBuildArgs.bindings a) w) = Ok d1Databases →
  buildMode a = Functions functionsDirectory →
  announce a w = (Ok tt, w0) →
  functionsOptions a functionsDirectory d1Databases (effectiveOutfile a) w0
  = (Ok options, w1) →
  (∀ message w2,
     buildFunctions options w1 = (Throw (FunctionsNoRoutesError message), w2) →
     Handler a w
     = (Throw (FatalError (getFunctionsNoRoutesWarning functionsDirectory)
                          (Some EXIT_CODE_FUNCTIONS_NO_ROUTES_ERROR)), w2))
  ∧ (∀ e w2,
       (∀ message, e ≠ FunctionsNoRoutesError message) →
       buildFunctions options w1 = (Throw e, w2) →
       Handler a w = (Throw e, w2)).
Proof.
  intros Hm Hd Hmode Ha Ho.
  destruct (resolveAndBuild_decoded a w d1Databases Hm Hd)
    as (w0' & _ & _ & Ha' & Hr).
  assert (w0' = w0) as -> by congruence.
  assert (∀ e e' w2,
            buildFunctions options w1 = (Throw e, w2) →
            translateBuilderError functionsDirectory e w2 = (Throw e', w2) →
            Handler a w = (Throw e', w2)) as Hcatch.
  { intros e e' w2 Hb Ht. apply Handler_Throw. rewrite Hr.
    unfold build. rewrite Hmode, (bind_Ok _ _ _ _ _ Ho).
    apply bind_Throw. unfold try_catch. by rewrite Hb. }
  split.
  - intros message w2 Hb. by apply (Hcatch _ _ _ Hb).
  - intros e w2 Hne Hb. apply (Hcatch _ _ _ Hb).
    destruct e; try done. by destruct (Hne message).
Qed.

Lemma builder_errors_witness :
  missingInputs (Sample.args None None None false)
                (Sample.world [("functions", Dir)]) = false
  ∧ fst (decodeBindings (RT := Sample.runtime)
           (PagesBuildArgs.bindings (Sample.args None None None false))
           (Sample.world [("functions", Dir)])) = Ok None
  ∧ buildMode (RT := Sample.runtime) (Sample.args None None None false)
    = Functions "functions"
  ∧ announce (CO := Sample.collaborators) (Sample.args None None None false)
      (Sample.world [("functions", Dir)]) = (Ok tt, Sample.announced [("functions", Dir)])
  ∧ functionsOptions (RT := Sample.runtime) (Sample.args None None None false)
      "functions" None "_worker.js" (Sample.announced [("functions", Dir)])
    = (Ok Sample.defaultFunctionsOptions, Sample.announced [("functions", Dir)])
  ∧ Sample.functions Sample.defaultFunctionsOptions
      (Sample.announced [("functions", Dir)])
    = (Throw (FunctionsNoRoutesError "no routes"),
       Sample.announced [("functions", Dir)])
  ∧ Sample.run (Sample.args None None None false)
               (Sample.world [("functions", Dir)])
    = (Throw (FatalError
                "No routes found when building Functions directory: functions"
                (Some 156)), Sample.announced [("functions", Dir)]).
Proof.
  assert (missingInputs (Sample.args None None None false)
            (Sample.world [("functions", Dir)]) = false) as Hm
    by (vm_compute; reflexivity).
  assert (Sample.functions Sample.defaultFunctionsOptions
            (Sample.announced [("functions", Dir)])
          = (Throw (FunctionsNoRoutesError "no routes"),
             Sample.announced [("functions", Dir)])) as Hb
    by (vm_compute; reflexivity).
  split_and!; [exact Hm | reflexivity | reflexivity | reflexivity
              | reflexivity | exact Hb |].
  exact (proj1 (builder_errors (RT := Sample.runtime) (CO := Sample.collaborators)
                  (Sample.args None None None false) "functions" None
                  (Sample.world [("functions", Dir)])
                  (Sample.announced [("functions", Dir)])
                  (Sample.announced [("functions", Dir)])
                  Sample.defaultFunctionsOptions
                  Hm eq_refl eq_refl eq_refl eq_refl) _ _ Hb).
Defined.

(** ** Build-mode resolution *)

Section Mode.
Context `{RT : Runtime}.

Lemma workerScriptPath_truthy (directory : option string) (path : string) :
  (∀ d, directory = Some d → resolvePath d "_worker.js" ≠ "") →
  workerScriptPath directory = Some path ∧ path ≠ ""
  ↔ ∃ d, directory = Some d ∧ d ≠ "" ∧ path = resolvePath d "_worker.js".
Proof.
  intros Hres. unfold workerScriptPath.
  destruct (truthy directory) eqn:Ht.
  - apply truthy_Some in Ht as (d & -> & Hd). cbn. split.
    + intros [[= <-] _]. by exists d.
    + intros (d' & [= <-] & _ & ->). split; [done|]. by apply Hres.
  - split.
    + intros [-> Hp]. by rewrite truthy_nonempty in Ht.
    + intros (d & -> & Hd & _). by rewrite truthy_nonempty in Ht.
Qed.

Lemma buildMode_falsy_directory (a : PagesBuildArgs.t) :
  truthy (PagesBuildArgs.directory a) = false →
  buildMode a
  = if truthy (Some (PagesBuildArgs.functionsDirectory a))
    then Functions (PagesBuildArgs.functionsDirectory a)
    else Unresolved.
Proof.
  intros Ht. unfold buildMode, workerScriptPath. rewrite Ht.
  destruct (PagesBuildArgs.directory a) as [d|]; [|done].
  by rewrite Ht.
Qed.
End Mode.

(** C1, as the code has it: RawWorker is selected exactly when a non-empty
    static-assets directory was requested, with the entry path
    [resolvePath directory "_worker.js"]; the file system is not consulted,
    so this holds whether or not that script exists and whether or not a
    functions directory is present, and the check of lines 135-144 never
    fires in that case. Otherwise, when that check does not fire and the
    functions directory is not the empty string, Functions is selected with
    the given functions directory. *)
Theorem buildMode_by_directory `{RT : Runtime} (a : PagesBuildArgs.t) :
  (∀ d, PagesBuildArgs.directory a = Some d → resolvePath d "_worker.js" ≠ "") →
  (∀ path,
     buildMode a = RawWorker path
     ↔ ∃ d, PagesBuildArgs.directory a = Some d ∧ d ≠ ""
            ∧ path = resolvePath d "_worker.js")
  ∧ (∀ path w, buildMode a = RawWorker path → checkInputs a w = (Ok tt, w))
  ∧ (∀ w,
       truthy (PagesBuildArgs.directory a) = false →
       missingInputs a w = false →
       PagesBuildArgs.functionsDirectory a ≠ "" →
       checkInputs a w = (Ok tt, w)
       ∧ buildMode a = Functions (PagesBuildArgs.functionsDirectory a)).
Proof.
  intros Hres.
  assert (∀ path,
            buildMode a = RawWorker path
            ↔ ∃ d, PagesBuildArgs.directory a = Some d ∧ d ≠ ""
                   ∧ path = resolvePath d "_worker.js") as Hraw.
  { intros path. rewrite <- (workerScriptPath_truthy _ _ Hres).
    unfold buildMode. cbv zeta.
    destruct (workerScriptPath (PagesBuildArgs.directory a)) as [p|] eqn:Ep.
    - destruct (truthy (Some p)) eqn:Et.
      + apply truthy_Some in Et as (? & [= <-] & Hp). split.
        * by intros [= <-].
        * by intros [[= <-] _].
      + split.
        * destruct (truthy (Some (PagesBuildArgs.functionsDirectory a)));
            intros; discriminate.
        * intros [[= <-] Hp]. by rewrite truthy_nonempty in Et.
    - split; [|by intros [? _]].
      destruct (truthy (Some (PagesBuildArgs.functionsDirectory a)));
        intros; discriminate. }
  split_and!; [done | |].
  - intros path w (d & Hd & Hne & _)%Hraw.
    unfold checkInputs, missingInputs. by rewrite Hd, truthy_nonempty.
  - intros w Ht Hm Hne. split.
    + unfold checkInputs. by rewrite Hm.
    + by rewrite buildMode_falsy_directory, truthy_nonempty.
Qed.

Lemma buildMode_by_directory_witness :
  (∀ d, PagesBuildArgs.directory (Sample.args (Some "public") None None false)
        = Some d → Posix.resolve "/project" d "_worker.js" ≠ "")
  ∧ buildMode (RT := Sample.runtime) (Sample.args (Some "public") None None false)
    = RawWorker "/project/public/_worker.js"
  ∧ buildMode (RT := Sample.runtime) (Sample.args None None None false)
    = Functions "functions".
Proof.
  assert (∀ d, PagesBuildArgs.directory (Sample.args (Some "public") None None false)
               = Some d → Posix.resolve "/project" d "_worker.js" ≠ "") as Hres
    by (by intros d [= <-]).
  split; [exact Hres|]. split.
  - apply (proj1 (buildMode_by_directory (RT := Sample.runtime)
                    (Sample.args (Some "public") None None false) Hres)).
    exists "public". by split_and!.
  - apply (proj2 (proj2 (buildMode_by_directory (RT := Sample.runtime)
                    (Sample.args None None None false)
                    ltac:(by intros d [=])))
             (Sample.world [("functions", Dir)]));
      [reflexivity | vm_compute; reflexivity | discriminate].
Defined.

(** C1 as stated fails: with [--directory public], a functions directory
    that has a route, and no file called [_worker.js] anywhere, the raw
    worker branch is taken all the same and the run ends with the failure of
    [buildRawWorker]. *)
Lemma raw_worker_selected_without_script :
  map_Forall (λ path _, Posix.basename path ≠ "_worker.js")
    (fs (Sample.world [("/project/public", Dir); ("public", Dir);
                       ("functions", Dir);
                       ("functions/index.js", File [x31])]))
  ∧ existsSync "/project/public/_worker.js"
      (Sample.world [("/project/public", Dir); ("public", Dir);
                     ("functions", Dir);
                     ("functions/index.js", File [x31])]) = false
  ∧ existsSync "functions"
      (Sample.world [("/project/public", Dir); ("public", Dir);
                     ("functions", Dir);
                     ("functions/index.js", File [x31])]) = true
  ∧ buildMode (RT := Sample.runtime) (Sample.args (Some "public") None None false)
    = RawWorker "/project/public/_worker.js"
  ∧ fst (Sample.run (Sample.args (Some "public") None None false)
           (Sample.world [("/project/public", Dir); ("public", Dir);
                          ("functions", Dir);
                          ("functions/index.js", File [x31])]))
    = Throw (SystemError "ENOENT" "/project/public/_worker.js").
Proof.
  split_and!; try (vm_compute; reflexivity).
  apply map_Forall_to_list. vm_compute. repeat constructor; discriminate.
Qed.

(** ** The output file *)

(** C10, as the code has it: the output file path defaults to
    [_worker.js]. When binary-envelope output is requested the Handler's
    output path is [_worker.bundle] whatever path was given; when it is not
    requested the given path (or the default) is the output path, and it is
    the [outfile] that [buildFunctions] receives. *)
Theorem outfile_by_mode `{RT : Runtime} (argv : Argv.t) :
  (Argv.outfile argv = None → PagesBuildArgs.outfile (Options argv) = "_worker.js")
  ∧ (Argv.experimental_worker_bundle argv = Some true →
     effectiveOutfile (Options argv) = "_worker.bundle")
  ∧ (default false (Argv.experimental_worker_bundle argv) = false →
     effectiveOutfile (Options argv) = default "_worker.js" (Argv.outfile argv)
     ∧ ∀ functionsDirectory d1Databases w,
         ∃ options,
           functionsOptions (Options argv) functionsDirectory d1Databases
             (effectiveOutfile (Options argv)) w = (Ok options, w)
           ∧ FunctionsOptions.outfile options
             = default "_worker.js" (Argv.outfile argv)).
Proof.
  split_and!.
  - intros H. cbn. by rewrite H.
  - intros H. unfold effectiveOutfile. cbn. by rewrite H.
  - intros H.
    assert (effectiveOutfile (Options argv)
            = default "_worker.js" (Argv.outfile argv)) as Ho
      by (unfold effectiveOutfile; cbn; by rewrite H).
    split; [done|]. intros functionsDirectory d1Databases w.
    unfold functionsOptions, bind, ret. cbn. rewrite H. cbn.
    eexists. split; [reflexivity|]. cbn. by rewrite Ho.
Qed.

Lemma outfile_by_mode_witness :
  effectiveOutfile (Sample.args None None None false) = "_worker.js"
  ∧ effectiveOutfile (Sample.args None None None true) = "_worker.bundle"
  ∧ effectiveOutfile (Sample.args None (Some "out.js") None false) = "out.js"
  ∧ ∃ options,
      functionsOptions (RT := Sample.runtime)
        (Sample.args None (Some "out.js") None false) "functions" None
        (effectiveOutfile (Sample.args None (Some "out.js") None false))
        (Sample.world [])
      = (Ok options, Sample.world [])
      ∧ FunctionsOptions.outfile options = "out.js".
Proof.
  split; [reflexivity|]. split.
  - by apply (proj1 (proj2 (outfile_by_mode (RT := Sample.runtime) _))).
  - destruct (proj2 (proj2 (outfile_by_mode (RT := Sample.runtime)
               {| Argv.directory := None;
                  Argv.functions_directory := None;
                  Argv.outfile := Some "out.js";
                  Argv.output_config_path := None;
                  Argv.output_routes_path := None;
                  Argv.minify := None;
                  Argv.sourcemap := None;
                  Argv.fallback_service := None;
                  Argv.watch := None;
                  Argv.plugin := None;
                  Argv.build_output_directory := None;
                  Argv.node_compat := None;
                  Argv.bindings := None;
                  Argv.experimental_worker_bundle := Some false |}))
               eq_refl) as [H1 H2].
    split; [exact H1|]. exact (H2 "functions" None (Sample.world [])).
Defined.

(** C10 as stated fails: with [--outfile out.bin] and binary-envelope
    output requested, the output path is [_worker.bundle]; the run writes
    there and leaves [out.bin] absent. *)
Lemma explicit_outfile_overridden :
  PagesBuildArgs.outfile (Sample.args None (Some "out.bin") None true) = "out.bin"
  ∧ effectiveOutfile (Sample.args None (Some "out.bin") None true)
    = "_worker.bundle"
  ∧ fst (Sample.run (Sample.args None (Some "out.bin") None true)
           (Sample.world [("functions", Dir);
                          ("functions/index.js", File [x31])]))
    = Ok tt
  ∧ fs (snd (Sample.run (Sample.args None (Some "out.bin") None true)
               (Sample.world [("functions", Dir);
                              ("functions/index.js", File [x31])])))
      !! "out.bin" = None
  ∧ is_Some
      (fs (snd (Sample.run (Sample.args None (Some "out.bin") None true)
                  (Sample.world [("functions", Dir);
                                 ("functions/index.js", File [x31])])))
         !! "_worker.bundle").
Proof.
  split_and!; try (vm_compute; reflexivity).
  eexists. vm_compute. reflexivity.
Qed.




(** ** Packaging *)

Section Packaging.
Context `{RT : Runtime}.

Lemma readFileSync_lookup (path : string) (w : World) :
  readFileSync path w
  = (match fs w !! path with
     | Some (File content) => Ok (utf8_decode content)
     | Some Dir => Throw (SystemError "EISDIR" path)
     | None => Throw (SystemError "ENOENT" path)
     end, w).
Proof.
  unfold readFileSync, bind, readFile.
  by destruct (fs w !! path) as [[content|]|].
Qed.

(** Building the [worker] object reads one file and changes nothing. *)
Lemma workerInit_world (workerBundle : option BundleResult.t) (w : World) :
  snd (workerInit workerBundle w) = w.
Proof.
  destruct workerBundle as [b|]; [|done].
  unfold workerInit, bind. rewrite readFileSync_lookup.
  by destruct (fs w !! _) as [[content|]|].
Qed.

(** It depends on the world through the entry file only. *)
Lemma workerInit_entry (b : BundleResult.t) (w1 w2 : World) :
  fs w1 !! BundleResult.resolvedEntryPointPath b
  = fs w2 !! BundleResult.resolvedEntryPointPath b →
  fst (workerInit (Some b) w1) = fst (workerInit (Some b) w2).
Proof.
  intros H. unfold workerInit, bind. rewrite !readFileSync_lookup, H.
  by destruct (fs w2 !! _) as [[content|]|].
Qed.
End Packaging.

(** C2, as the code has it: the form built from a bundle depends on the
    world through the content of the entry file only, and building it
    changes nothing; so packaging the same bundle twice while the entry
    file is unchanged hands the same form to the encoder, or fails with the
    same error. The packaged bytes are what [new Response(form).blob()]
    returns for that form at each call. *)
Theorem packaging_form_pure `{RT : Runtime} `{CO : Collaborators}
  (bundle : BundleResult.t) (w1 w2 : World) :
  fs w1 !! BundleResult.resolvedEntryPointPath bundle
  = fs w2 !! BundleResult.resolvedEntryPointPath bundle →
  fst (createWorkerBundleFormData (Some bundle) w1)
  = fst (createWorkerBundleFormData (Some bundle) w2)
  ∧ snd (createWorkerBundleFormData (Some bundle) w1) = w1
  ∧ snd (createWorkerBundleFormData (Some bundle) w2) = w2
  ∧ (∀ form,
       fst (createWorkerBundleFormData (Some bundle) w1) = Ok form →
       createUploadWorkerBundleContents (Some bundle) w1 = Response_blob form w1
       ∧ createUploadWorkerBundleContents (Some bundle) w2
         = Response_blob form w2)
  ∧ (∀ e,
       fst (createWorkerBundleFormData (Some bundle) w1) = Throw e →
       createUploadWorkerBundleContents (Some bundle) w1 = (Throw e, w1)
       ∧ createUploadWorkerBundleContents (Some bundle) w2 = (Throw e, w2)).
Proof.
  intros Hfs.
  pose proof (workerInit_entry bundle w1 w2 Hfs) as Hi.
  pose proof (workerInit_world (Some bundle) w1) as H1.
  pose proof (workerInit_world (Some bundle) w2) as H2.
  unfold createUploadWorkerBundleContents, createWorkerBundleFormData, bind, ret.
  destruct (workerInit (Some bundle) w1) as [[worker1|e1] w1'],
           (workerInit (Some bundle) w2) as [[worker2|e2] w2'];
    cbn in Hi, H1, H2; subst; try discriminate; injection Hi as <-;
    split_and!; try done.
  - by intros form [= <-].
  - by intros e [= <-].
Qed.

Lemma packaging_form_pure_witness :
  fs (Sample.world [("/tmp/out.mjs", File [x31; x32]); ("a.txt", File [x33])])
     !! "/tmp/out.mjs"
  = fs (mkWorld (list_to_map [("/tmp/out.mjs", File [x31; x32]); ("b", Dir)])
          7 [MetricsEvent "earlier"])
       !! "/tmp/out.mjs"
  ∧ fst (createWorkerBundleFormData (RT := Sample.runtime)
           (CO := Sample.collaborators) (Some Sample.builtBundle)
           (Sample.world [("/tmp/out.mjs", File [x31; x32]);
                          ("a.txt", File [x33])]))
    = fst (createWorkerBundleFormData (RT := Sample.runtime)
             (CO := Sample.collaborators) (Some Sample.builtBundle)
             (mkWorld (list_to_map [("/tmp/out.mjs", File [x31; x32]); ("b", Dir)])
                7 [MetricsEvent "earlier"])).
Proof.
  assert (fs (Sample.world [("/tmp/out.mjs", File [x31; x32]); ("a.txt", File [x33])])
             !! "/tmp/out.mjs"
          = fs (mkWorld (list_to_map [("/tmp/out.mjs", File [x31; x32]); ("b", Dir)])
                  7 [MetricsEvent "earlier"])
               !! "/tmp/out.mjs") as Hfs by (vm_compute; reflexivity).
  split; [exact Hfs|].
  exact (proj1 (packaging_form_pure (RT := Sample.runtime)
                  (CO := Sample.collaborators) Sample.builtBundle _ _ Hfs)).
Defined.

(** C2 as stated fails: with an encoder that draws the boundary of the
    multi-part body at each call, packaging the same bundle twice, the
    second time in the world the first one left and with the file system
    unchanged, gives the same form and different bytes. *)
Lemma packaging_bytes_differ :
  fs (snd (createUploadWorkerBundleContents (RT := Sample.runtime)
             (CO := Sample.collaborators_drawing_boundary)
             (Some Sample.builtBundle)
             (Sample.world [("/tmp/out.mjs", File [x31; x32])])))
  = fs (Sample.world [("/tmp/out.mjs", File [x31; x32])])
  ∧ fst (createWorkerBundleFormData (RT := Sample.runtime)
           (CO := Sample.collaborators_drawing_boundary)
           (Some Sample.builtBundle)
           (Sample.world [("/tmp/out.mjs", File [x31; x32])]))
    = fst (createWorkerBundleFormData (RT := Sample.runtime)
             (CO := Sample.collaborators_drawing_boundary)
             (Some Sample.builtBundle)
             (snd (createUploadWorkerBundleContents (RT := Sample.runtime)
                     (CO := Sample.collaborators_drawing_boundary)
                     (Some Sample.builtBundle)
                     (Sample.world [("/tmp/out.mjs", File [x31; x32])]))))
  ∧ fst (createUploadWorkerBundleContents (RT := Sample.runtime)
           (CO := Sample.collaborators_drawing_boundary)
           (Some Sample.builtBundle)
           (Sample.world [("/tmp/out.mjs", File [x31; x32])]))
    ≠ fst (createUploadWorkerBundleContents (RT := Sample.runtime)
             (CO := Sample.collaborators_drawing_boundary)
             (Some Sample.builtBundle)
             (snd (createUploadWorkerBundleContents (RT := Sample.runtime)
                     (CO := Sample.collaborators_drawing_boundary)
                     (Some Sample.builtBundle)
                     (Sample.world [("/tmp/out.mjs", File [x31; x32])])))).
Proof.
  split_and!; [reflexivity | vm_compute; reflexivity |].
  vm_compute. discriminate.
Qed.



(** ** The name of the main module *)

Lemma list_ascii_of_string_append (a b : string) :
  list_ascii_of_string (a +:+ b)
  = (list_ascii_of_string a ++ list_ascii_of_string b)%list.
Proof. induction a as [|c a IH]; simpl; [done|]. by f_equal. Qed.






(** * Further properties of the Handler *)

Section Runs.
Context `{RT : Runtime} `{CO : Collaborators}.

Lemma missingInputs_other_directory (a : PagesBuildArgs.t) (w : World) :
  PagesBuildArgs.functionsDirectory a ≠ "functions" → missingInputs a w = false.
Proof.
  intros H. unfold missingInputs.
  rewrite (bool_decide_eq_false_2 _ H). by destruct (negb _).
Qed.

Lemma missingInputs_directory (a : PagesBuildArgs.t) (w : World) :
  truthy (PagesBuildArgs.directory a) = true → missingInputs a w = false.
Proof. intros H. unfold missingInputs. by rewrite H. Qed.

(** The run of the Functions branch, from the call of the builder on. *)
Lemma Handler_Functions (a : PagesBuildArgs.t) (functionsDirectory : string)
  (d1Databases : option (list string)) (w w0 w1 : World)
  (options : FunctionsOptions.t) :
  missingInputs a w = false →
  fst (decodeBindings (PagesBuildArgs.bindings a) w) = Ok d1Databases →
  buildMode a = Functions functionsDirectory →
  announce a w = (Ok tt, w0) →
  functionsOptions a functionsDirectory d1Databases (effectiveOutfile a) w0
  = (Ok options, w1) →
  Handler a w = afterFunctionsBuild a functionsDirectory options w1.
Proof.
  intros Hm Hd Hmode Ha Ho.
  destruct (resolveAndBuild_decoded a w d1Databases Hm Hd)
    as (w0' & _ & _ & Ha' & Hr).
  assert (w0' = w0) as -> by congruence.
  unfold Handler, afterFunctionsBuild, bind at 1. rewrite Hr.
  unfold build. rewrite Hmode. unfold bind at 1. rewrite Ho.
  unfold bind.
  by destruct (try_catch _ _ w1) as [[bundle|e] w2].
Qed.

(** The run of the raw-worker branch. *)
Lemma resolveAndBuild_RawWorker (a : PagesBuildArgs.t) (path : string) (w : World) :
  buildMode a = RawWorker path →
  truthy (PagesBuildArgs.directory a) = true →
  resolveAndBuild a w
  = (announce a ;;
     d1Databases <- decodeBindings (PagesBuildArgs.bindings a) ;;
     options <- rawWorkerOptions a path d1Databases ;;
     bundle <- buildRawWorker options ;;
     ret (Some bundle)) w.
Proof.
  intros Hmode Ht.
  destruct (resolveAndBuild_checked a w (missingInputs_directory a w Ht))
    as (w0 & _ & _ & Ha & ->).
  rewrite (bind_Ok _ _ _ _ _ Ha). unfold build. by rewrite Hmode.
Qed.
End Runs.

(** X1: with no static-assets directory and the empty string as functions
    directory, neither branch of lines 165 and 188 is taken and no builder
    is called. Without binary-envelope output the run then succeeds having
    only logged and reported; with it, packaging the undefined bundle fails
    with a [TypeError] and nothing is written. *)
Theorem empty_functions_directory `{RT : Runtime} `{CO : Collaborators}
  (a : PagesBuildArgs.t) (w : World) (d1Databases : option (list string)) :
  truthy (PagesBuildArgs.directory a) = false →
  PagesBuildArgs.functionsDirectory a = "" →
  fst (decodeBindings (PagesBuildArgs.bindings a) w) = Ok d1Databases →
  buildMode a = Unresolved
  ∧ ∃ w0,
      announce a w = (Ok tt, w0) ∧ fs w0 = fs w ∧ draws w0 = draws w
      ∧ Handler a w
        = if PagesBuildArgs.experimentalWorkerBundle a
          then (Throw (TypeError
                  "Cannot read properties of undefined (reading 'resolvedEntryPointPath')"),
                w0)
          else (Ok tt,
                mkWorld (fs w0) (draws w0)
                        (events w0 ++ [MetricsEvent "build pages functions"])).
Proof.
  intros Ht Hfd Hd.
  assert (buildMode a = Unresolved) as Hmode
    by (by rewrite buildMode_falsy_directory, Hfd).
  split; [done|].
  assert (missingInputs a w = false) as Hm
    by (apply missingInputs_other_directory; by rewrite Hfd).
  destruct (resolveAndBuild_decoded a w d1Databases Hm Hd)
    as (w0 & Hfs & Hdr & Ha & Hr).
  exists w0. split_and!; try done.
  unfold build in Hr. rewrite Hmode in Hr.
  unfold Handler. rewrite (bind_Ok _ _ _ _ _ Hr).
  by destruct (PagesBuildArgs.experimentalWorkerBundle a).
Qed.

Lemma empty_functions_directory_witness :
  truthy (PagesBuildArgs.directory (Demo.args None "" "out.js" None true)) = false
  ∧ PagesBuildArgs.functionsDirectory (Demo.args None "" "out.js" None true) = ""
  ∧ fst (decodeBindings (RT := Sample.runtime)
           (PagesBuildArgs.bindings (Demo.args None "" "out.js" None true))
           (Sample.world [("functions", Dir)])) = Ok None
  ∧ Handler (RT := Sample.runtime) (CO := Sample.collaborators)
      (Demo.args None "" "out.js" None true) (Sample.world [("functions", Dir)])
    = (Throw (TypeError
         "Cannot read properties of undefined (reading 'resolvedEntryPointPath')"),
       Sample.announced [("functions", Dir)]).
Proof.
  split_and!; [reflexivity | reflexivity | reflexivity |].
  destruct (empty_functions_directory (RT := Sample.runtime)
              (CO := Sample.collaborators)
              (Demo.args None "" "out.js" None true)
              (Sample.world [("functions", Dir)]) None
              eq_refl eq_refl eq_refl) as (_ & w0 & Ha & _ & _ & ->).
  cbn [PagesBuildArgs.experimentalWorkerBundle Demo.args Options Argv.experimental_worker_bundle default from_option id].
  f_equal. vm_compute in Ha. by injection Ha as <-.
Defined.

(** X2: once a non-empty static-assets directory is given, the run depends
    on the arguments through [directory], [nodeCompat], [bindings] and
    [experimentalWorkerBundle] only: the functions directory, the output
    paths and the flags [minify], [sourcemap], [watch], [plugin] and
    [fallbackService] reach neither [buildRawWorker] nor the output step. *)
Theorem raw_mode_ignores_flags `{RT : Runtime} `{CO : Collaborators}
  (a a' : PagesBuildArgs.t) (d : string) (w : World) :
  PagesBuildArgs.directory a = Some d →
  d ≠ "" →
  resolvePath d "_worker.js" ≠ "" →
  PagesBuildArgs.directory a' = Some d →
  PagesBuildArgs.nodeCompat a' = PagesBuildArgs.nodeCompat a →
  PagesBuildArgs.bindings a' = PagesBuildArgs.bindings a →
  PagesBuildArgs.experimentalWorkerBundle a'
  = PagesBuildArgs.experimentalWorkerBundle a →
  Handler a' w = Handler a w.
Proof.
  intros Hd Hne Hres Hd' Hnc Hb He.
  assert (∀ x, PagesBuildArgs.directory x = Some d →
               buildMode x = RawWorker (resolvePath d "_worker.js")
               ∧ truthy (PagesBuildArgs.directory x) = true) as Hraw.
  { intros x Hx. split; [|by rewrite Hx, truthy_nonempty].
    apply (proj1 (buildMode_by_directory x
                    ltac:(by intros d0; rewrite Hx; intros [= <-]))).
    by exists d. }
  destruct (Hraw a Hd) as [Hm Ht], (Hraw a' Hd') as [Hm' Ht'].
  assert (resolveAndBuild a' w = resolveAndBuild a w) as Hr.
  { rewrite (resolveAndBuild_RawWorker a _ w Hm Ht),
      (resolveAndBuild_RawWorker a' _ w Hm' Ht').
    unfold announce, rawWorkerOptions. by rewrite Hnc, Hb, He, Hd, Hd'. }
  unfold Handler, bind at 1 3. rewrite Hr.
  destruct (resolveAndBuild a w) as [[bundle|e] w1]; [|done].
  unfold effectiveOutfile. rewrite He.
  by destruct (PagesBuildArgs.experimentalWorkerBundle a).
Qed.

Lemma raw_mode_ignores_flags_witness :
  PagesBuildArgs.directory (Demo.args (Some "public") "functions" "a.js" None false)
  = Some "public"
  ∧ "public" ≠ ""
  ∧ Posix.resolve "/project" "public" "_worker.js" ≠ ""
  ∧ PagesBuildArgs.directory (Demo.args (Some "public") "api" "b/c.js" None false)
    = Some "public"
  ∧ Handler (RT := Sample.runtime) (CO := Sample.collaborators)
      (Demo.args (Some "public") "api" "b/c.js" None false)
      (Sample.world [("/project/public/_worker.js", File [x31])])
    = Handler (RT := Sample.runtime) (CO := Sample.collaborators)
        (Demo.args (Some "public") "functions" "a.js" None false)
        (Sample.world [("/project/public/_worker.js", File [x31])]).
Proof.
  split_and!; [reflexivity | discriminate | discriminate | reflexivity |].
  apply (raw_mode_ignores_flags (RT := Sample.runtime)
           (CO := Sample.collaborators) _ _ "public");
    (reflexivity || discriminate).
Defined.

(** X3: with binary-envelope output requested the given [--outfile] plays
    no part in the run, in either branch: two runs that differ in it only
    are the same run. *)
Theorem bundle_mode_ignores_outfile `{RT : Runtime} `{CO : Collaborators}
  (a : PagesBuildArgs.t) (outfile : string) (w : World) :
  PagesBuildArgs.experimentalWorkerBundle a = true →
  Handler (with_outfile outfile a) w = Handler a w.
Proof.
  intros He. destruct a. cbn in He. subst.
  unfold Handler, resolveAndBuild, announce, checkInputs, missingInputs,
    effectiveOutfile, build, buildMode, rawWorkerOptions, functionsOptions,
    with_outfile.
  reflexivity.
Qed.

Lemma bundle_mode_ignores_outfile_witness :
  PagesBuildArgs.experimentalWorkerBundle
    (Demo.args None "functions" "a.js" None true) = true
  ∧ Handler (RT := Sample.runtime) (CO := Sample.collaborators)
      (with_outfile "elsewhere/out.bin" (Demo.args None "functions" "a.js" None true))
      (Sample.world [("functions", Dir); ("functions/index.js", File [x31])])
    = Handler (RT := Sample.runtime) (CO := Sample.collaborators)
        (Demo.args None "functions" "a.js" None true)
        (Sample.world [("functions", Dir); ("functions/index.js", File [x31])]).
Proof.
  split; [reflexivity|].
  by apply (bundle_mode_ignores_outfile (RT := Sample.runtime)
              (CO := Sample.collaborators)).
Defined.

Lemma truthy_false (x : option string) :
  truthy x = false ↔ x = None ∨ x = Some "".
Proof.
  destruct x as [s|]; cbn.
  - rewrite negb_false_iff, bool_decide_eq_true. split.
    + intros ->. by right.
    + by intros [?|[= ->]].
  - split; [by left | done].
Qed.

Lemma missingInputs_true `{RT : Runtime} (a : PagesBuildArgs.t) (w : World) :
  missingInputs a w = true
  ↔ (PagesBuildArgs.directory a = None ∨ PagesBuildArgs.directory a = Some "")
    ∧ PagesBuildArgs.functionsDirectory a = "functions"
    ∧ fs w !! "functions" = None.
Proof.
  unfold missingInputs, existsSync.
  rewrite !andb_true_iff, !negb_true_iff, bool_decide_eq_true,
    bool_decide_eq_false, truthy_false, <- eq_None_not_Some.
  split.
  - intros [[? Hf] Hn]. rewrite Hf in Hn. done.
  - intros (? & Hf & Hn). rewrite Hf. done.
Qed.

(** X4: the check of lines 135-144 fails exactly when the static-assets
    directory is absent or the empty string, the functions directory is
    spelled [functions], and nothing exists at that path; it then raises the
    [FatalError] without exit code and leaves the world as it is. *)
Theorem checkInputs_fails_exactly `{RT : Runtime}
  (a : PagesBuildArgs.t) (w w' : World) (e : Exn) :
  checkInputs a w = (Throw e, w')
  ↔ (PagesBuildArgs.directory a = None ∨ PagesBuildArgs.directory a = Some "")
    ∧ PagesBuildArgs.functionsDirectory a = "functions"
    ∧ fs w !! "functions" = None
    ∧ e = FatalError (missingInputsMessage "functions") None
    ∧ w' = w.
Proof.
  unfold checkInputs. destruct (missingInputs a w) eqn:Hm.
  - apply missingInputs_true in Hm as (Hd & Hf & Hn). rewrite Hf.
    unfold throw. split.
    + by intros [= <- <-].
    + by intros (_ & _ & _ & -> & ->).
  - split; [done|]. intros (Hd & Hf & Hn & _).
    assert (missingInputs a w = true) by (by apply missingInputs_true).
    congruence.
Qed.

(** X5: a functions directory under any other name than [functions] is not
    looked for on disk: without a static-assets directory, and whatever the
    file system holds, the run passes the check and calls [buildFunctions]
    on that directory; from there on it is the builder's outcome, the error
    translation, the output step and the metrics event. *)
Theorem named_functions_directory_unchecked `{RT : Runtime} `{CO : Collaborators}
  (a : PagesBuildArgs.t) (w : World) (d1Databases : option (list string)) :
  truthy (PagesBuildArgs.directory a) = false →
  PagesBuildArgs.functionsDirectory a ≠ "functions" →
  PagesBuildArgs.functionsDirectory a ≠ "" →
  fst (decodeBindings (PagesBuildArgs.bindings a) w) = Ok d1Databases →
  ∃ w0 w1 options,
    checkInputs a w = (Ok tt, w)
    ∧ announce a w = (Ok tt, w0)
    ∧ functionsOptions a (PagesBuildArgs.functionsDirectory a) d1Databases
        (effectiveOutfile a) w0 = (Ok options, w1)
    ∧ FunctionsOptions.functionsDirectory options
      = PagesBuildArgs.functionsDirectory a
    ∧ fs w1 = fs w
    ∧ Handler a w
      = afterFunctionsBuild a (PagesBuildArgs.functionsDirectory a) options w1.
Proof.
  intros Ht Hf Hne Hd.
  pose proof (missingInputs_other_directory a w Hf) as Hm.
  destruct (announce_Ok a w) as (w0 & Ha & Hfs & Hdr).
  assert (buildMode a = Functions (PagesBuildArgs.functionsDirectory a)) as Hmode
    by (by rewrite buildMode_falsy_directory, truthy_nonempty).
  destruct (functionsOptions a (PagesBuildArgs.functionsDirectory a) d1Databases
              (effectiveOutfile a) w0) as [[options|e] w1] eqn:Ho.
  - exists w0, w1, options. split_and!; try done.
    + unfold checkInputs. by rewrite Hm.
    + unfold functionsOptions, bind, Math_random_text, ret in Ho.
      destruct (PagesBuildArgs.experimentalWorkerBundle a);
        by injection Ho as <- <-.
    + unfold functionsOptions, bind, Math_random_text, ret in Ho.
      destruct (PagesBuildArgs.experimentalWorkerBundle a);
        by injection Ho as <- <-.
    + by apply (Handler_Functions a _ d1Databases w w0 w1).
  - unfold functionsOptions, bind, Math_random_text, ret in Ho.
    by destruct (PagesBuildArgs.experimentalWorkerBundle a).
Qed.

Lemma named_functions_directory_unchecked_witness :
  truthy (PagesBuildArgs.directory (Demo.args None "api" "out.js" None false))
  = false
  ∧ PagesBuildArgs.functionsDirectory (Demo.args None "api" "out.js" None false)
    ≠ "functions"
  ∧ PagesBuildArgs.functionsDirectory (Demo.args None "api" "out.js" None false)
    ≠ ""
  ∧ fst (decodeBindings (RT := Sample.runtime)
           (PagesBuildArgs.bindings (Demo.args None "api" "out.js" None false))
           (Sample.world [])) = Ok None
  ∧ fs (Sample.world []) = ∅
  ∧ ∃ w0 w1 options,
      checkInputs (Demo.args None "api" "out.js" None false) (Sample.world [])
      = (Ok tt, Sample.world [])
      ∧ announce (CO := Sample.collaborators)
          (Demo.args None "api" "out.js" None false) (Sample.world [])
        = (Ok tt, w0)
      ∧ functionsOptions (RT := Sample.runtime)
          (Demo.args None "api" "out.js" None false) "api" None "out.js" w0
        = (Ok options, w1)
      ∧ FunctionsOptions.functionsDirectory options = "api"
      ∧ fs w1 = fs (Sample.world [])
      ∧ Handler (RT := Sample.runtime) (CO := Sample.collaborators)
          (Demo.args None "api" "out.js" None false) (Sample.world [])
        = afterFunctionsBuild (RT := Sample.runtime) (CO := Sample.collaborators)
            (Demo.args None "api" "out.js" None false) "api" options w1.
Proof.
  split_and!; [reflexivity | discriminate | discriminate | reflexivity
              | reflexivity |].
  apply (named_functions_directory_unchecked (RT := Sample.runtime)
           (CO := Sample.collaborators)
           (Demo.args None "api" "out.js" None false) (Sample.world []) None);
    (reflexivity || discriminate).
Defined.

(** X6: what the extraction returns for a blob that parses but is not
    shaped as expected. A decoded value that is no object, or a
    [d1_databases] member that is [null], [false], zero or the empty string,
    gives the empty list and no error; a member that is an array or a
    non-empty string gives its indices [0 ... n-1], not its elements. *)
Theorem d1Databases_of_odd_shapes `{RT : Runtime}
  (blob : string) (v : JSON) (w : World) :
  blob ≠ "" →
  JSON_parse blob = Some v →
  ((∀ members, v ≠ JObject members) →
   decodeBindings (Some blob) w = (Ok (Some []), w))
  ∧ (∀ x, optional_member v "d1_databases" = Some x → ToBoolean x = false →
       decodeBindings (Some blob) w = (Ok (Some []), w))
  ∧ (∀ elements, optional_member v "d1_databases" = Some (JArray elements) →
       decodeBindings (Some blob) w
       = (Ok (Some (indices (length elements))), w))
  ∧ (∀ s, optional_member v "d1_databases" = Some (JString s) → s ≠ "" →
       decodeBindings (Some blob) w
       = (Ok (Some (indices (String.length s))), w)).
Proof.
  intros Hne Hv.
  destruct (decodeBindings_parsed blob v w Hne Hv) as (ks & Hks & ->).
  split_and!.
  - intros Hno. destruct v; try (by destruct (Hno members));
      cbn in Hks; by injection Hks as <-.
  - intros x Hx Hb. rewrite Hx in Hks. cbn in Hks. rewrite Hb in Hks.
    cbn in Hks. by injection Hks as <-.
  - intros elements Hx. rewrite Hx in Hks. cbn in Hks. by injection Hks as <-.
  - intros s Hx Hs. rewrite Hx in Hks. cbn in Hks.
    rewrite (bool_decide_eq_false_2 _ Hs) in Hks. cbn in Hks.
    by injection Hks as <-.
Qed.

Lemma d1Databases_of_odd_shapes_witness :
  Sample.quoted "{'d1_databases':['DB1','DB2']}" ≠ ""
  ∧ Posix.JSON_parse (Sample.quoted "{'d1_databases':['DB1','DB2']}")
    = Some (JObject [("d1_databases", JArray [JString "DB1"; JString "DB2"])])
  ∧ decodeBindings (RT := Sample.runtime)
      (Some (Sample.quoted "{'d1_databases':['DB1','DB2']}")) (Sample.world [])
    = (Ok (Some ["0"; "1"]), Sample.world []).
Proof.
  assert (Posix.JSON_parse (Sample.quoted "{'d1_databases':['DB1','DB2']}")
          = Some (JObject [("d1_databases", JArray [JString "DB1"; JString "DB2"])]))
    as Hv by (vm_compute; reflexivity).
  split; [discriminate|]. split; [exact Hv|].
  exact (proj1 (proj2 (proj2
           (d1Databases_of_odd_shapes (RT := Sample.runtime)
              (Sample.quoted "{'d1_databases':['DB1','DB2']}") _ (Sample.world [])
              ltac:(discriminate) Hv)))
           [JString "DB1"; JString "DB2"] eq_refl).
Defined.

(** X7: the output file is written only after packaging has succeeded. When
    packaging fails the run ends with that failure and writes nothing: with
    no bundle at all it is a [TypeError]; with the entry file missing,
    [ENOENT]; with a directory in its place, [EISDIR]; in all three the world
    is as the build left it. And when the output path itself is a
    directory, the write fails with [EISDIR] and the file system is as
    packaging left it. *)
Theorem failed_packaging_writes_nothing `{RT : Runtime} `{CO : Collaborators}
  (a : PagesBuildArgs.t) (w w1 : World) (bundle : option BundleResult.t) :
  resolveAndBuild a w = (Ok bundle, w1) →
  PagesBuildArgs.experimentalWorkerBundle a = true →
  (∀ e w2, createUploadWorkerBundleContents bundle w1 = (Throw e, w2) →
           Handler a w = (Throw e, w2))
  ∧ (bundle = None →
     Handler a w
     = (Throw (TypeError
          "Cannot read properties of undefined (reading 'resolvedEntryPointPath')"),
        w1))
  ∧ (∀ b, bundle = Some b →
       fs w1 !! BundleResult.resolvedEntryPointPath b = None →
       Handler a w
       = (Throw (SystemError "ENOENT" (BundleResult.resolvedEntryPointPath b)), w1))
  ∧ (∀ b, bundle = Some b →
       fs w1 !! BundleResult.resolvedEntryPointPath b = Some Dir →
       Handler a w
       = (Throw (SystemError "EISDIR" (BundleResult.resolvedEntryPointPath b)), w1))
  ∧ (∀ bytes w2,
       createUploadWorkerBundleContents bundle w1 = (Ok bytes, w2) →
       fs w2 !! "_worker.bundle" = Some Dir →
       Handler a w = (Throw (SystemError "EISDIR" "_worker.bundle"), w2)).
Proof.
  intros Hr He.
  assert (∀ e w2, createUploadWorkerBundleContents bundle w1 = (Throw e, w2) →
                  Handler a w = (Throw e, w2)) as Hfail.
  { intros e w2 Hp. unfold Handler. rewrite (bind_Ok _ _ _ _ _ Hr), He.
    apply bind_Throw. unfold writeWorkerBundle. by apply bind_Throw. }
  assert (∀ b e, bundle = Some b →
            readFileSync (BundleResult.resolvedEntryPointPath b) w1 = (Throw e, w1) →
            Handler a w = (Throw e, w1)) as Hread.
  { intros b e -> Hread. apply Hfail.
    unfold createUploadWorkerBundleContents, createWorkerBundleFormData.
    apply bind_Throw, bind_Throw. unfold workerInit. by apply bind_Throw. }
  split_and!.
  - done.
  - intros ->. by apply Hfail.
  - intros b Hb Hn. apply (Hread b _ Hb). by rewrite readFileSync_lookup, Hn.
  - intros b Hb Hn. apply (Hread b _ Hb). by rewrite readFileSync_lookup, Hn.
  - intros bytes w2 Hp Hdir. unfold Handler.
    rewrite (bind_Ok _ _ _ _ _ Hr), He. apply bind_Throw.
    unfold writeWorkerBundle. rewrite (bind_Ok _ _ _ _ _ Hp).
    unfold effectiveOutfile, writeFileSync. by rewrite He, Hdir.
Qed.

Lemma failed_packaging_writes_nothing_witness :
  ∃ bundle w1 bytes w2,
    resolveAndBuild (RT := Sample.runtime) (CO := Sample.collaborators)
      (Sample.args None None None true)
      (Sample.world [("functions", Dir); ("functions/index.js", File [x31]);
                     ("_worker.bundle", Dir)])
    = (Ok bundle, w1)
    ∧ PagesBuildArgs.experimentalWorkerBundle (Sample.args None None None true)
      = true
    ∧ createUploadWorkerBundleContents (RT := Sample.runtime)
        (CO := Sample.collaborators) bundle w1 = (Ok bytes, w2)
    ∧ fs w2 !! "_worker.bundle" = Some Dir
    ∧ Sample.run (Sample.args None None None true)
        (Sample.world [("functions", Dir); ("functions/index.js", File [x31]);
                       ("_worker.bundle", Dir)])
      = (Throw (SystemError "EISDIR" "_worker.bundle"), w2).
Proof.
  destruct (resolveAndBuild (RT := Sample.runtime) (CO := Sample.collaborators)
              (Sample.args None None None true)
              (Sample.world [("functions", Dir); ("functions/index.js", File [x31]);
                             ("_worker.bundle", Dir)]))
    as [[bundle|e] w1] eqn:Hr; [|vm_compute in Hr; discriminate].
  pose proof Hr as Hv. vm_compute in Hv. injection Hv as <- <-.
  match type of Hr with _ = (Ok ?b, ?w1) =>
    destruct (createUploadWorkerBundleContents (RT := Sample.runtime)
                (CO := Sample.collaborators) b w1)
      as [[bytes|e] w2] eqn:Hp; [|vm_compute in Hp; discriminate]
  end.
  pose proof Hp as Hv. vm_compute in Hv. injection Hv as <- <-.
  eexists _, _, _, _.
  split; [exact Hr|]. split; [reflexivity|]. split; [exact Hp|].
  match type of Hp with _ = (_, ?w2) =>
    assert (fs w2 !! "_worker.bundle" = Some Dir) as Hdir
      by (vm_compute; reflexivity)
  end.
  split; [exact Hdir|].
  exact (proj2 (proj2 (proj2 (proj2
           (failed_packaging_writes_nothing (RT := Sample.runtime)
              (CO := Sample.collaborators) _ _ _ _ Hr eq_refl)))) _ _ Hp Hdir).
Defined.

(** * The deployments commands *)

(** X8: [deployments] logs one message per deployment, in the order of the
    list; every message but the last is the plain description of its
    deployment, and the last one is its description followed by the
    [Active] mark. With no deployment at all nothing is marked and
    [logger.log] receives no message. *)
Theorem versionMessages_marks_last (deploys : list Deployment.t) :
  length (versionMessages deploys) = length deploys
  ∧ (∀ i d, deploys !! i = Some d → (S i < length deploys)%nat →
       versionMessages deploys !! i = Some (versionMessage d))
  ∧ (∀ d, last deploys = Some d →
       last (versionMessages deploys)
       = Some (versionMessage d +:+ "🟩 Active"))
  ∧ (deploys = [] → versionMessages deploys = []).
Proof.
  unfold versionMessages. cbv zeta. rewrite fmap_last.
  destruct (last deploys) as [d0|] eqn:Hlast; cbn [fmap option_fmap option_map].
  - split_and!.
    + by rewrite length_insert, length_fmap.
    + intros i d Hi Hlt.
      rewrite list_lookup_insert_ne by (rewrite length_fmap; lia).
      by rewrite list_lookup_fmap, Hi.
    + intros d [= <-]. rewrite last_lookup, length_insert.
      replace (pred (length (versionMessage <$> deploys)))
        with (length (versionMessage <$> deploys) - 1)%nat by lia.
      apply list_lookup_insert_eq. rewrite length_fmap.
      destruct deploys; [done | cbn; lia].
    + by intros ->.
  - apply last_None in Hlast as ->. by split_and!.
Qed.

(** ** The entries that the loops visit *)

Lemma optional_member_elem_of (members : list (string * JSON)) (k : string)
  (x : JSON) :
  optional_member (JObject members) k = Some x → (k, x) ∈ members.
Proof.
  cbn. destruct (last _) as [[k' x']|] eqn:Hl; [|done]. intros [= <-].
  apply last_Some_elem_of, list_elem_of_filter in Hl as [Hk ?].
  cbn in Hk. by subst.
Qed.

Lemma optional_member_is_Some (members : list (string * JSON)) (k : string) :
  k ∈ members.*1 → is_Some (optional_member (JObject members) k).
Proof.
  intros ([k' x] & -> & Hin)%list_elem_of_fmap. cbn.
  destruct (last (filter (λ kv, kv.1 = k') members)) as [kv|] eqn:Hl; [by eexists|].
  apply last_None in Hl.
  by destruct (filter_nil_not_elem_of _ _ (k', x) Hl).
Qed.

(** When every key has one value, the member under a key is that value. *)
Lemma optional_member_functional (members : list (string * JSON)) (k : string)
  (x : JSON) :
  (∀ x1 x2, (k, x1) ∈ members → (k, x2) ∈ members → x1 = x2) →
  optional_member (JObject members) k = Some x ↔ (k, x) ∈ members.
Proof.
  intros Hfun. split; [apply optional_member_elem_of|].
  intros Hin.
  destruct (optional_member_is_Some members k) as [x' Hx'].
  { apply list_elem_of_fmap. by exists (k, x). }
  rewrite Hx'. f_equal. apply Hfun; [|done].
  by apply optional_member_elem_of.
Qed.

Lemma own_entries_object (members : list (string * JSON)) (k : string) (x : JSON) :
  (k, x) ∈ own_entries (JObject members)
  ↔ optional_member (JObject members) k = Some x.
Proof.
  unfold own_entries. rewrite list_elem_of_omap. split.
  - intros (k0 & _ & Hk0).
    destruct (optional_member (JObject members) k0) eqn:E; [|done].
    cbn in Hk0. by injection Hk0 as <- <-.
  - intros Hx. exists k. split; [|by rewrite Hx].
    apply elem_of_own_keys, list_elem_of_fmap. exists (k, x).
    split; [done|]. by apply optional_member_elem_of.
Qed.

Lemma index_inj (i j : nat) :
  pretty (N.of_nat i) = pretty (N.of_nat j) → i = j.
Proof. intros H. by apply Nat2N.inj, (inj pretty). Qed.

Lemma own_entries_functional (v : JSON) (k : string) (x1 x2 : JSON) :
  (k, x1) ∈ own_entries v → (k, x2) ∈ own_entries v → x1 = x2.
Proof.
  destruct v as [| b | m e | s | elements | members];
    try (by intros ?%not_elem_of_nil).
  - cbn [own_entries].
    intros (i & c1 & [= -> ->] & H1)%elem_of_lookup_imap
           (j & c2 & [= Hij ->] & H2)%elem_of_lookup_imap.
    apply index_inj in Hij as ->. congruence.
  - cbn [own_entries].
    intros (i & y1 & [= -> ->] & H1)%elem_of_lookup_imap
           (j & y2 & [= Hij ->] & H2)%elem_of_lookup_imap.
    apply index_inj in Hij as ->. congruence.
  - rewrite !own_entries_object. congruence.
Qed.

(** ** Flattening *)

Lemma elem_of_flattenEntry (a k : string) (c v : JSON) :
  (k, v) ∈ flattenEntry (a, c)
  ↔ (is_object c = false ∧ a ≠ "__proto__" ∧ k = a ∧ v = c)
    ∨ (is_object c = true
       ∧ ∃ sk, (sk, v) ∈ own_entries c ∧ k = a +:+ "." +:+ sk).
Proof.
  unfold flattenEntry. destruct (is_object c).
  - rewrite list_elem_of_fmap. split.
    + intros ([sk sv] & [= -> ->] & Hin). right. split; [done|]. by exists sk.
    + intros [[? _]|[_ (sk & Hin & ->)]]; [done|]. by exists (sk, v).
  - case_bool_decide as Hp.
    + split; [by intros ?%not_elem_of_nil|].
      by intros [(_ & ? & _)|[? _]].
    + rewrite list_elem_of_singleton. split.
      * intros [= -> ->]. by left.
      * by intros [(_ & _ & -> & ->)|[? _]].
Qed.

(** The assignments made to [flatObj]. *)
Lemma elem_of_assignments (d : JSON) (k : string) (v : JSON) :
  (k, v) ∈ own_entries d ≫= flattenEntry
  ↔ ((k, v) ∈ own_entries d ∧ is_object v = false ∧ k ≠ "__proto__")
    ∨ (∃ a c sk, (a, c) ∈ own_entries d ∧ is_object c = true
                 ∧ (sk, v) ∈ own_entries c ∧ k = a +:+ "." +:+ sk).
Proof.
  rewrite list_elem_of_bind. split.
  - intros ([a c] & [(Hc & Hp & -> & ->)|(Hc & sk & Hsk & ->)]%elem_of_flattenEntry
              & Hin).
    + by left.
    + right. by exists a, c, sk.
  - intros [(Hin & Hv & Hp)|(a & c & sk & Hin & Hc & Hsk & ->)].
    + exists (k, v). split; [|done]. apply elem_of_flattenEntry. by left.
    + exists (a, c). split; [|done]. apply elem_of_flattenEntry. right.
      split; [done|]. by exists sk.
Qed.

Lemma append_nil_l (s : string) : "" +:+ s = s.
Proof. reflexivity. Qed.

Lemma append_cons (c : ascii) (a s : string) :
  String c a +:+ s = String c (a +:+ s).
Proof. reflexivity. Qed.

Lemma dotted_inj (a a' s s' : string) :
  dot_free a → dot_free a' →
  a +:+ "." +:+ s = a' +:+ "." +:+ s' → a = a' ∧ s = s'.
Proof.
  unfold dot_free. revert a'.
  induction a as [|c a IH]; intros [|c' a'] Ha Ha';
    rewrite ?append_nil_l, ?append_cons, ?append_nil_l.
  - by intros [= ->].
  - intros [= <- _]. by apply Forall_cons_1 in Ha' as [? _].
  - intros [= -> _]. by apply Forall_cons_1 in Ha as [? _].
  - intros [= -> H]. cbn in Ha, Ha'.
    apply Forall_cons_1 in Ha as [_ Ha]. apply Forall_cons_1 in Ha' as [_ Ha'].
    by destruct (IH a' Ha Ha' H) as [-> ->].
Qed.

Lemma dotted_not_dot_free (a s : string) : ¬ dot_free (a +:+ "." +:+ s).
Proof.
  unfold dot_free. rewrite list_ascii_of_string_append, append_cons.
  intros [_ H]%Forall_app. cbn in H. by apply Forall_cons_1 in H as [? _].
Qed.

(** A key of line 162 is never [__proto__]. *)
Lemma proto_not_dotted (a s : string) : "__proto__" ≠ a +:+ "." +:+ s.
Proof.
  intros Heq. apply (dotted_not_dot_free a s). rewrite <- Heq.
  unfold dot_free. cbn. repeat constructor; discriminate.
Qed.

(** X9: the keys of the flattened object, each listed once: the top-level
    keys other than [__proto__] whose value is neither an object nor an
    array, under their own name, and for every top-level key that holds an
    object or an array, one key [key.subKey] per entry of it. Nothing is
    flattened below that second level, and [__proto__] is never among the
    keys. *)
Theorem flatObj_keys (deploymentDetails : JSON) :
  ∃ ks,
    Object_keys (flatObj deploymentDetails) = Some ks
    ∧ NoDup ks
    ∧ ("__proto__" ∉ ks)
    ∧ ∀ k,
        k ∈ ks
        ↔ (∃ v, (k, v) ∈ own_entries deploymentDetails ∧ is_object v = false
                ∧ k ≠ "__proto__")
          ∨ (∃ a c sk sv,
               (a, c) ∈ own_entries deploymentDetails ∧ is_object c = true
               ∧ (sk, sv) ∈ own_entries c ∧ k = a +:+ "." +:+ sk).
Proof.
  eexists. split; [reflexivity|]. split; [apply NoDup_own_keys|]. split.
  - rewrite elem_of_own_keys, list_elem_of_fmap.
    intros ([k v] & Hk & [(_ & _ & Hp)|(a & c & sk & _ & _ & _ & Heq)]%elem_of_assignments);
      cbn in Hk; subst k; [done|].
    by apply (proto_not_dotted a sk).
  - intros k. rewrite elem_of_own_keys, list_elem_of_fmap. split.
    + intros ([k' v] & -> & [(? & ? & ?)|(a & c & sk & ? & ? & ? & ?)]%elem_of_assignments).
      * left. by exists v.
      * right. by exists a, c, sk, v.
    + intros [(v & Hin & Hv & Hp)|(a & c & sk & sv & Hin & Hc & Hsk & ->)].
      * exists (k, v). split; [done|]. apply elem_of_assignments. by left.
      * exists (a +:+ "." +:+ sk, sv). split; [done|].
        apply elem_of_assignments. right. by exists a, c, sk.
Qed.

(** With top-level keys that have no dot, every key is assigned once. *)
Lemma assignments_functional (d : JSON) (k : string) (v1 v2 : JSON) :
  (∀ a c, (a, c) ∈ own_entries d → dot_free a) →
  (k, v1) ∈ own_entries d ≫= flattenEntry →
  (k, v2) ∈ own_entries d ≫= flattenEntry →
  v1 = v2.
Proof.
  intros Hdot
    [(H1 & Hv1 & _)|(a1 & c1 & sk1 & H1 & Hc1 & Hsk1 & Hk1)]%elem_of_assignments
    [(H2 & Hv2 & _)|(a2 & c2 & sk2 & H2 & Hc2 & Hsk2 & Hk2)]%elem_of_assignments.
  - by apply (own_entries_functional d k).
  - subst k. destruct (dotted_not_dot_free a2 sk2). by apply (Hdot _ v1).
  - subst k. destruct (dotted_not_dot_free a1 sk1). by apply (Hdot _ v2).
  - rewrite Hk1 in Hk2.
    apply dotted_inj in Hk2 as [-> ->];
      [|by apply (Hdot _ c1)|by apply (Hdot _ c2)].
    assert (c2 = c1) as -> by (by apply (own_entries_functional d a2)).
    by apply (own_entries_functional c1 sk2).
Qed.

Lemma flatObj_member (d : JSON) (k : string) (v : JSON) :
  (∀ a c, (a, c) ∈ own_entries d → dot_free a) →
  optional_member (flatObj d) k = Some v
  ↔ ((k, v) ∈ own_entries d ∧ is_object v = false ∧ k ≠ "__proto__")
    ∨ (∃ a c sk, (a, c) ∈ own_entries d ∧ is_object c = true
                 ∧ (sk, v) ∈ own_entries c ∧ k = a +:+ "." +:+ sk).
Proof.
  intros Hdot. unfold flatObj.
  rewrite optional_member_functional, elem_of_assignments; [done|].
  intros x1 x2. by apply assignments_functional.
Qed.

(** X10: when no top-level key has a dot in it, the own properties of the
    flattened object give back the values of the original: a plain field
    whose key is not [__proto__] under its own name, and an entry of an
    object- or array-valued field under [key.subKey]; there is nothing else
    in it, and so nothing under [__proto__]. *)
Theorem flatObj_lookup (deploymentDetails : JSON) (k : string) (v : JSON) :
  (∀ a c, (a, c) ∈ own_entries deploymentDetails → dot_free a) →
  optional_member (flatObj deploymentDetails) k = Some v
  ↔ ((k, v) ∈ own_entries deploymentDetails ∧ is_object v = false
     ∧ k ≠ "__proto__")
    ∨ (∃ a c sk,
         (a, c) ∈ own_entries deploymentDetails ∧ is_object c = true
         ∧ (sk, v) ∈ own_entries c ∧ k = a +:+ "." +:+ sk).
Proof. apply flatObj_member. Qed.

(** X11: a field that holds an object or an array is never shown under its
    own name, and when that object or array is empty the field leaves no
    trace in the flattened object at all (top-level keys without dots). *)
Theorem flatObj_drops_containers (deploymentDetails : JSON) (a : string) (c : JSON) :
  (∀ a c, (a, c) ∈ own_entries deploymentDetails → dot_free a) →
  (a, c) ∈ own_entries deploymentDetails →
  is_object c = true →
  optional_member (flatObj deploymentDetails) a = None
  ∧ (own_entries c = [] →
     ∀ sk, optional_member (flatObj deploymentDetails) (a +:+ "." +:+ sk) = None).
Proof.
  intros Hdot Hin Hc. split.
  - apply eq_None_not_Some. intros [v Hv].
    destruct (proj1 (flatObj_member _ _ _ Hdot) Hv)
      as [(Hv' & Hno & _)|(a' & c' & sk & _ & _ & _ & Heq)].
    + assert (v = c) as -> by (by apply (own_entries_functional deploymentDetails a)).
      congruence.
    + destruct (dotted_not_dot_free a' sk). rewrite <- Heq. by apply (Hdot _ c).
  - intros Hempty sk. apply eq_None_not_Some. intros [v Hv].
    destruct (proj1 (flatObj_member _ _ _ Hdot) Hv)
      as [(Hv' & _)|(a' & c' & sk' & Hin' & _ & Hsk & Heq)].
    + destruct (dotted_not_dot_free a sk). by apply (Hdot _ v).
    + apply dotted_inj in Heq as [-> ->];
        [|by apply (Hdot _ c)|by apply (Hdot _ c')].
      assert (c' = c) as -> by (by apply (own_entries_functional deploymentDetails a')).
      rewrite Hempty in Hsk. by apply not_elem_of_nil in Hsk.
Qed.

(** X12: an object whose fields are all plain (no object, no array among
    the values) reads the same after flattening under every key but
    [__proto__]: each such key gives the value it gave before, and no key
    is added. A field [__proto__] of the original is not among the own
    properties of the flattened object. *)
Theorem flatObj_of_flat_object (members : list (string * JSON)) (k : string) :
  (∀ k x, (k, x) ∈ members → is_object x = false) →
  (k ≠ "__proto__" →
   optional_member (flatObj (JObject members)) k
   = optional_member (JObject members) k)
  ∧ optional_member (flatObj (JObject members)) "__proto__" = None.
Proof.
  intros Hplain.
  assert (∀ k v, (k, v) ∈ own_entries (JObject members) ≫= flattenEntry
                 ↔ (k, v) ∈ own_entries (JObject members) ∧ k ≠ "__proto__")
    as Hsame.
  { intros k' v'. rewrite elem_of_assignments. split.
    - intros [(? & _ & ?)|(a & c & sk & Hin & Hc & _)]; [done|].
      apply own_entries_object, optional_member_elem_of, Hplain in Hin.
      congruence.
    - intros [Hin Hp]. left. split_and!; [done| |done].
      by apply own_entries_object, optional_member_elem_of, Hplain in Hin. }
  assert (∀ k v, optional_member (flatObj (JObject members)) k = Some v
                 ↔ (k, v) ∈ own_entries (JObject members) ∧ k ≠ "__proto__")
    as Hmem.
  { intros k' v'. unfold flatObj.
    rewrite optional_member_functional; [apply Hsame|].
    intros x1 x2 [H1 _]%Hsame [H2 _]%Hsame.
    by apply (own_entries_functional (JObject members) k'). }
  split.
  - intros Hk. apply option_eq. intros v.
    rewrite Hmem, <- own_entries_object. tauto.
  - apply eq_None_not_Some. intros [v [_ Hp]%Hmem]. done.
Qed.

Ltac concrete_entries H :=
  vm_compute in H;
  repeat (apply elem_of_cons in H as [H|H]; [injection H as -> ->|]);
  try (by apply not_elem_of_nil in H).

Ltac no_dot := unfold dot_free; cbn; repeat constructor; discriminate.

Ltac entry_there := apply list_elem_of_In; vm_compute; auto 10.

Lemma flatObj_lookup_witness :
  (∀ a c, (a, c) ∈ own_entries Demo.details → dot_free a)
  ∧ optional_member (flatObj Demo.details) "id" = Some (JString "d-1")
  ∧ optional_member (flatObj Demo.details) "metadata.source"
    = Some (JString "api")
  ∧ optional_member (flatObj Demo.details) "resources.bindings"
    = Some (JArray []).
Proof.
  assert (∀ a c, (a, c) ∈ own_entries Demo.details → dot_free a) as Hdot
    by (intros a c H; concrete_entries H; no_dot).
  split; [exact Hdot|]. split_and!.
  - apply (flatObj_lookup _ _ _ Hdot). left.
    split_and!; [entry_there | reflexivity | discriminate].
  - apply (flatObj_lookup _ _ _ Hdot). right.
    exists "metadata",
      (JObject [("author_email", JString "a@b.c"); ("source", JString "api")]),
      "source".
    split_and!; [entry_there | reflexivity | entry_there | reflexivity].
  - apply (flatObj_lookup _ _ _ Hdot). right.
    exists "resources",
      (JObject [("script", JString "worker"); ("bindings", JArray [])]),
      "bindings".
    split_and!; [entry_there | reflexivity | entry_there | reflexivity].
Defined.

Lemma flatObj_drops_containers_witness :
  (∀ a c, (a, c) ∈ own_entries Demo.bare → dot_free a)
  ∧ ("resources", JObject []) ∈ own_entries Demo.bare
  ∧ is_object (JObject []) = true
  ∧ own_entries (JObject []) = []
  ∧ optional_member (flatObj Demo.bare) "resources" = None
  ∧ (∀ sk, optional_member (flatObj Demo.bare) ("resources" +:+ "." +:+ sk) = None)
  ∧ Object_keys (flatObj Demo.bare) = Some ["id"].
Proof.
  assert (∀ a c, (a, c) ∈ own_entries Demo.bare → dot_free a) as Hdot
    by (intros a c H; concrete_entries H; no_dot).
  assert (("resources", JObject []) ∈ own_entries Demo.bare) as Hin
    by entry_there.
  destruct (flatObj_drops_containers Demo.bare "resources" (JObject [])
              Hdot Hin eq_refl) as [H1 H2].
  split_and!; [exact Hdot | exact Hin | reflexivity | reflexivity
              | exact H1 | exact (H2 eq_refl) | vm_compute; reflexivity].
Defined.

Lemma flatObj_of_flat_object_witness :
  (∀ k x, (k, x) ∈ [("id", JString "d-1"); ("__proto__", JNumber 1 0);
                    ("number", JNumber 3 0)] →
          is_object x = false)
  ∧ "number" ≠ "__proto__"
  ∧ optional_member
      (flatObj (JObject [("id", JString "d-1"); ("__proto__", JNumber 1 0);
                         ("number", JNumber 3 0)])) "number"
    = optional_member
        (JObject [("id", JString "d-1"); ("__proto__", JNumber 1 0);
                  ("number", JNumber 3 0)]) "number"
  ∧ optional_member
      (flatObj (JObject [("id", JString "d-1"); ("__proto__", JNumber 1 0);
                         ("number", JNumber 3 0)])) "__proto__"
    = None.
Proof.
  assert (∀ k x, (k, x) ∈ [("id", JString "d-1"); ("__proto__", JNumber 1 0);
                           ("number", JNumber 3 0)] →
                 is_object x = false) as Hplain.
  { intros k x H.
    repeat (apply elem_of_cons in H as [H|H]; [by injection H as -> ->|]).
    by apply not_elem_of_nil in H. }
  assert ("number" ≠ "__proto__") as Hk by discriminate.
  destruct (flatObj_of_flat_object _ "number" Hplain) as [H1 H2].
  split_and!; [exact Hplain | exact Hk | exact (H1 Hk) | exact H2].
Defined.
